(** * Verification of [validate_egg_structure.py]

    A shallow embedding of the [EggValidator] class and of [main], together
    with the properties of its report, of its result lists and of the
    process exit status.

    Python values are modelled as follows.
    - [str] is [string]: the UTF-8 encoding of the text.  Substring tests
      ([in]) agree on the encoding and on the code points; slicing counts
      code points, see [Str.slice_to].
    - [pathlib.Path] is the list of its components; the directory tree the
      script inspects is a finite tree of named nodes.
    - a method of [EggValidator] is a computation over the object and the
      console, which either returns a value or raises an exception. *)

From Stdlib Require Import ZArith Ascii String DecimalString.
From stdpp Require Import base list strings.

Local Open Scope string_scope.
Local Open Scope list_scope.

(** ** Strings *)

Module Str.

(** The line feed, written [\n] in the source. *)
Definition nl : string := String (Ascii.ascii_of_nat 10) "".

(** [s * n] on a [str]. *)
Fixpoint repeat (s : string) (n : nat) : string :=
  match n with
  | O => ""
  | S n' => s +:+ repeat s n'
  end.

(** [str(n)] for a non-negative [int]. *)
Definition of_nat (n : nat) : string :=
  NilEmpty.string_of_uint (Nat.to_uint n).

(** [needle in hay]: some suffix of [hay] starts with [needle]. *)
Fixpoint contains (needle hay : string) : bool :=
  if String.prefix needle hay then true
  else match hay with
       | EmptyString => false
       | String _ hay' => contains needle hay'
       end.

(** A byte [10xxxxxx] continues the code point begun before it. *)
Definition is_continuation (c : Ascii.ascii) : bool :=
  match c with
  | Ascii.Ascii _ _ _ _ _ _ b6 b7 => b7 && negb b6
  end.

(** [s[:n]]: the first [n] code points of [s]. *)
Fixpoint slice_to (n : nat) (s : string) : string :=
  match s with
  | EmptyString => EmptyString
  | String c s' =>
      if is_continuation c then String c (slice_to n s')
      else match n with
           | O => EmptyString
           | S n' => String c (slice_to n' s')
           end
  end.

End Str.

(** ** Paths and the directory tree *)

(** A [Path] is the list of its components. *)
Definition Path : Type := list string.

(** The components of a relative path written with ['/'] separators;
    empty components are dropped, as [pathlib] does. *)
Fixpoint parts_from (cur s : string) : list string :=
  match s with
  | EmptyString => if String.eqb cur "" then [] else [cur]
  | String c s' =>
      if Ascii.eqb c "/"%char
      then (if String.eqb cur "" then parts_from "" s'
            else cur :: parts_from "" s')
      else parts_from (cur +:+ String c "") s'
  end.

Definition parts (s : string) : list string := parts_from "" s.

(** [p / s] *)
Definition joinpath (p : Path) (s : string) : Path := p ++ parts s.

Notation "p // s" := (joinpath p s) (at level 40, left associativity).

(** [str(p)] *)
Definition path_str (p : Path) : string :=
  match p with
  | [] => "."
  | _ => String.concat "/" p
  end.

(** A node of the tree: a directory with named entries, a file holding
    text, or a file that cannot be read as text (no permission, bytes that
    do not decode). *)
#[warnings="-register-all"]
Inductive node : Type :=
| Dir (entries : list (string * node))
| TextFile (content : string)
| Unreadable.

Fixpoint find_entry (name : string) (entries : list (string * node))
  : option node :=
  match entries with
  | [] => None
  | (k, n) :: entries' =>
      if String.eqb k name then Some n else find_entry name entries'
  end.

Fixpoint lookup_path (n : node) (p : Path) : option node :=
  match p with
  | [] => Some n
  | c :: p' =>
      match n with
      | Dir entries =>
          match find_entry c entries with
          | Some n' => lookup_path n' p'
          | None => None
          end
      | _ => None
      end
  end.

(** ** The world outside the program *)

(** What [subprocess.run(["cargo", "check", "--workspace"], ...)] does:
    it returns a completed process, or raises. *)
Inductive run_outcome : Type :=
| Completed (returncode : Z) (stderr : string)
| RaisesFileNotFoundError
| RaisesTimeoutExpired
| RaisesException (str_e : string).

Record World : Type := mkWorld {
  fs : node;                  (* the tree below the current directory *)
  script_dir : Path;          (* [Path(__file__).parent] *)
  cargo_check : run_outcome   (* the outcome of the build check *)
}.

(** ** Computations *)

Inductive exn : Type :=
| IsADirectoryError
| FileNotFoundError
| ReadError            (* [PermissionError], [UnicodeDecodeError], ... *)
| SystemExit (code : Z).

Inductive result (A : Type) : Type :=
| Ret (a : A)
| Raise (e : exn).
Arguments Ret {A} a.
Arguments Raise {A} e.

Record EggValidator : Type := mkEggValidator {
  egg_root : Path;
  errors : list string;
  warnings : list string;
  successes : list string
}.

(** The object a method runs on and the lines printed so far. *)
Record Proc : Type := mkProc {
  self : EggValidator;
  stdout : list string
}.

Definition M (A : Type) : Type := Proc → result A * Proc.

#[global] Instance M_ret : MRet M := λ A a s, (Ret a, s).

#[global] Instance M_bind : MBind M := λ A B f m s,
  match m s with
  | (Ret a, s') => f a s'
  | (Raise e, s') => (Raise e, s')
  end.

Definition raise {A} (e : exn) : M A := λ s, (Raise e, s).

Definition get_self : M EggValidator := λ s, (Ret (self s), s).

Definition print (line : string) : M unit := λ s,
  (Ret (), {| self := self s; stdout := stdout s ++ [line] |}).

Definition update (f : EggValidator → EggValidator) : M unit := λ s,
  (Ret (), {| self := f (self s); stdout := stdout s |}).

(** [self.errors.append(msg)] and its two siblings. *)
Definition errors_append (msg : string) : M unit :=
  update (λ v, {| egg_root := egg_root v; errors := errors v ++ [msg];
                  warnings := warnings v; successes := successes v |}).

Definition warnings_append (msg : string) : M unit :=
  update (λ v, {| egg_root := egg_root v; errors := errors v;
                  warnings := warnings v ++ [msg]; successes := successes v |}).

Definition successes_append (msg : string) : M unit :=
  update (λ v, {| egg_root := egg_root v; errors := errors v;
                  warnings := warnings v; successes := successes v ++ [msg] |}).

(** [for x in xs: body] *)
Fixpoint for_each {A} (xs : list A) (body : A → M unit) : M unit :=
  match xs with
  | [] => mret ()
  | x :: xs' => body x ;; for_each xs' body
  end.

(** ** The validator *)

(** The truth value of a list: [if xs:]. *)
Definition truthy {A} (xs : list A) : bool :=
  match xs with
  | [] => false
  | _ :: _ => true
  end.

(** [EggValidator(egg_root)].  [main] passes [str(egg_root)] and
    [__init__] turns it back into a [Path]; [Path(str(p)) == p]. *)
Definition EggValidator_init (root : Path) : EggValidator :=
  {| egg_root := root; errors := []; warnings := []; successes := [] |}.

Definition required_dirs : list string :=
  [ "crates/limit-core";
    "crates/limit-storage";
    "crates/limit-orchestration";
    "crates/limit-agents";
    "services/api";
    "examples";
    "tests";
    ".github/workflows" ].

Definition crates : list string :=
  [ "limit-core";
    "limit-storage";
    "limit-orchestration";
    "limit-agents" ].

Definition required_examples : list string :=
  [ "basic_session.rs";
    "agent_benchmark.rs";
    "federated_orchestration.rs" ].

Definition required_members : list string :=
  [ "crates/limit-core";
    "crates/limit-storage";
    "crates/limit-orchestration";
    "crates/limit-agents";
    "services/api" ].

Definition required_jobs : list string := [ "test"; "fmt"; "clippy"; "build" ].

Definition docs : list string :=
  [ "README.md";
    "QUICK_START.md";
    "IMPLEMENTATION_COMPLETE.md";
    "FEDERATED_ARCHITECTURE.md" ].

Section Validator.

Variable w : World.

(** [p.exists()] *)
Definition path_exists (p : Path) : bool :=
  match lookup_path (fs w) p with
  | Some _ => true
  | None => false
  end.

(** [with open(p, 'r') as f: content = f.read()] *)
Definition read_text (p : Path) : M string :=
  match lookup_path (fs w) p with
  | Some (TextFile content) => mret content
  | Some (Dir _) => raise IsADirectoryError
  | Some Unreadable => raise ReadError
  | None => raise FileNotFoundError
  end.

Definition validate_structure : M bool :=
  print "🔍 Validating egg folder structure..." ;;
  for_each required_dirs (λ dir_path,
    this ← get_self;
    let full_path := egg_root this // dir_path in
    if path_exists full_path
    then successes_append ("✓ Directory exists: " +:+ dir_path)
    else errors_append ("✗ Missing directory: " +:+ dir_path)) ;;
  this ← get_self;
  mret (length (errors this) =? 0)%nat.

Definition validate_crate_files : M bool :=
  print (Str.nl +:+ "🔍 Validating crate files...") ;;
  for_each crates (λ crate,
    this ← get_self;
    let crate_path := egg_root this // "crates" // crate in
    let cargo_toml := crate_path // "Cargo.toml" in
    (if path_exists cargo_toml
     then successes_append ("✓ " +:+ crate +:+ "/Cargo.toml exists")
     else errors_append ("✗ " +:+ crate +:+ "/Cargo.toml missing")) ;;
    let lib_rs := crate_path // "src" // "lib.rs" in
    if path_exists lib_rs
    then successes_append ("✓ " +:+ crate +:+ "/src/lib.rs exists")
    else errors_append ("✗ " +:+ crate +:+ "/src/lib.rs missing")) ;;
  this ← get_self;
  mret (length (errors this) =? 0)%nat.

Definition validate_examples : M bool :=
  print (Str.nl +:+ "🔍 Validating examples...") ;;
  this ← get_self;
  let examples_dir := egg_root this // "examples" in
  for_each required_examples (λ example,
    let example_path := examples_dir // example in
    if path_exists example_path
    then successes_append ("✓ Example exists: " +:+ example)
    else errors_append ("✗ Missing example: " +:+ example)) ;;
  this ← get_self;
  mret (length (errors this) =? 0)%nat.

Definition validate_workspace_config : M bool :=
  print (Str.nl +:+ "🔍 Validating workspace configuration...") ;;
  this ← get_self;
  let cargo_toml := egg_root this // "Cargo.toml" in
  if negb (path_exists cargo_toml)
  then errors_append "✗ Root Cargo.toml missing" ;; mret false
  else
    content ← read_text cargo_toml;
    for_each required_members (λ member,
      if Str.contains member content
      then successes_append ("✓ Workspace member: " +:+ member)
      else errors_append ("✗ Missing workspace member: " +:+ member)) ;;
    this ← get_self;
    mret (length (errors this) =? 0)%nat.

Definition validate_docker_config : M bool :=
  print (Str.nl +:+ "🔍 Validating Docker configuration...") ;;
  this ← get_self;
  let dockerfile := egg_root this // "Dockerfile" in
  let docker_compose := egg_root this // "docker-compose.yml" in
  let dockerignore := egg_root this // ".dockerignore" in
  (if path_exists dockerfile
   then successes_append "✓ Dockerfile exists"
   else warnings_append "⚠ Dockerfile missing") ;;
  (if path_exists docker_compose
   then successes_append "✓ docker-compose.yml exists"
   else warnings_append "⚠ docker-compose.yml missing") ;;
  (if path_exists dockerignore
   then successes_append "✓ .dockerignore exists"
   else warnings_append "⚠ .dockerignore missing") ;;
  mret true.

Definition validate_ci_workflow : M bool :=
  print (Str.nl +:+ "🔍 Validating CI/CD workflow...") ;;
  this ← get_self;
  let ci_workflow := egg_root this // ".github" // "workflows" // "ci.yml" in
  (if path_exists ci_workflow
   then
     successes_append "✓ CI workflow exists" ;;
     content ← read_text ci_workflow;
     for_each required_jobs (λ job,
       if Str.contains (job +:+ ":") content
       then successes_append ("✓ CI job defined: " +:+ job)
       else warnings_append ("⚠ CI job missing: " +:+ job))
   else errors_append "✗ CI workflow missing") ;;
  this ← get_self;
  mret (length (errors this) =? 0)%nat.

Definition validate_documentation : M bool :=
  print (Str.nl +:+ "🔍 Validating documentation...") ;;
  for_each docs (λ doc,
    this ← get_self;
    let doc_path := egg_root this // doc in
    if path_exists doc_path
    then successes_append ("✓ Documentation: " +:+ doc)
    else warnings_append ("⚠ Missing documentation: " +:+ doc)) ;;
  mret true.

(** The [try] block and its three handlers, by the outcome of
    [subprocess.run]. *)
Definition check_cargo_build : M bool :=
  print (Str.nl +:+ "🔍 Checking cargo build capability...") ;;
  match cargo_check w with
  | Completed returncode stderr =>
      if (returncode =? 0)%Z
      then successes_append "✓ Cargo check passed" ;; mret true
      else
        warnings_append ("⚠ Cargo check failed: " +:+ Str.slice_to 200 stderr) ;;
        mret false
  | RaisesFileNotFoundError =>
      warnings_append "⚠ Cargo not found - skipping build check" ;; mret true
  | RaisesTimeoutExpired =>
      warnings_append "⚠ Cargo check timed out" ;; mret true
  | RaisesException str_e =>
      warnings_append ("⚠ Cargo check error: " +:+ str_e) ;; mret true
  end.

Definition print_report : M bool :=
  print (Str.nl +:+ Str.repeat "=" 60) ;;
  print "📊 VALIDATION REPORT" ;;
  print (Str.repeat "=" 60) ;;
  this ← get_self;
  (if truthy (successes this)
   then
     print (Str.nl +:+ "✅ Successes ("
            +:+ Str.of_nat (length (successes this)) +:+ "):") ;;
     for_each (take 10 (successes this)) (λ success,
       print ("  " +:+ success)) ;;
     if (10 <? length (successes this))%nat
     then print ("  ... and " +:+ Str.of_nat (length (successes this) - 10)
                 +:+ " more")
     else mret ()
   else mret ()) ;;
  (if truthy (warnings this)
   then
     print (Str.nl +:+ "⚠️  Warnings ("
            +:+ Str.of_nat (length (warnings this)) +:+ "):") ;;
     for_each (warnings this) (λ warning, print ("  " +:+ warning))
   else mret ()) ;;
  (if truthy (errors this)
   then
     print (Str.nl +:+ "❌ Errors ("
            +:+ Str.of_nat (length (errors this)) +:+ "):") ;;
     for_each (errors this) (λ error, print ("  " +:+ error))
   else mret ()) ;;
  print (Str.nl +:+ Str.repeat "=" 60) ;;
  if truthy (errors this)
  then print "❌ VALIDATION FAILED" ;; mret false
  else if truthy (warnings this)
  then print "⚠️  VALIDATION PASSED WITH WARNINGS" ;; mret true
  else print "✅ VALIDATION PASSED" ;; mret true.

Definition validations : list (M bool) :=
  [ validate_structure;
    validate_crate_files;
    validate_examples;
    validate_workspace_config;
    validate_docker_config;
    validate_ci_workflow;
    validate_documentation;
    check_cargo_build ].

Definition run_all_validations : M bool :=
  print ("🚀 Starting Quantum LIMIT-Graph Egg Validation" +:+ Str.nl) ;;
  for_each validations (λ validation, validation ;; mret ()) ;;
  print_report.

(** [main], started with the console holding [out].  The validator it
    constructs, if any, is returned beside the way [main] ends:
    [sys.exit(n)] raises [SystemExit n]. *)
Definition main (out : list string)
  : result unit * option EggValidator * list string :=
  let egg_root := script_dir w in
  if negb (path_exists egg_root)
  then (Raise (SystemExit 1), None,
        out ++ ["❌ Error: Egg root directory not found: "
                +:+ path_str egg_root])
  else
    let validator := EggValidator_init egg_root in
    match run_all_validations {| self := validator; stdout := out |} with
    | (Ret success, s) =>
        (Raise (SystemExit (if success then 0 else 1)), Some (self s), stdout s)
    | (Raise e, s) => (Raise e, Some (self s), stdout s)
    end.

End Validator.

(** The exit status of the interpreter: the code of [SystemExit], [1] for
    any other exception that reaches the top, [0] when the script ends. *)
Definition exit_status (r : result unit) : Z :=
  match r with
  | Ret _ => 0
  | Raise (SystemExit code) => code
  | Raise _ => 1
  end.

(** ** What a run appends

    Every method only appends to the three lists and to the console.  A
    [Delta] collects the four lists of appended entries; [extend] applies
    one to a state. *)

Record Delta : Type := mkDelta {
  d_successes : list string;
  d_warnings : list string;
  d_errors : list string;
  d_stdout : list string
}.

Definition dnil : Delta := mkDelta [] [] [] [].

Definition dapp (a b : Delta) : Delta :=
  mkDelta (d_successes a ++ d_successes b) (d_warnings a ++ d_warnings b)
          (d_errors a ++ d_errors b) (d_stdout a ++ d_stdout b).

Definition dconcat (ds : list Delta) : Delta := foldr dapp dnil ds.

Definition success (msg : string) : Delta := mkDelta [msg] [] [] [].
Definition warning (msg : string) : Delta := mkDelta [] [msg] [] [].
Definition error (msg : string) : Delta := mkDelta [] [] [msg] [].
Definition printed (line : string) : Delta := mkDelta [] [] [] [line].

Definition extend (s : Proc) (d : Delta) : Proc :=
  {| self := {| egg_root := egg_root (self s);
                errors := errors (self s) ++ d_errors d;
                warnings := warnings (self s) ++ d_warnings d;
                successes := successes (self s) ++ d_successes d |};
     stdout := stdout s ++ d_stdout d |}.

(** The exception [read_text] raises on a path, if any. *)
Definition read_exn (w : World) (p : Path) : option exn :=
  match lookup_path (fs w) p with
  | Some (TextFile _) => None
  | Some (Dir _) => Some IsADirectoryError
  | Some Unreadable => Some ReadError
  | None => Some FileNotFoundError
  end.

(** The entries each check appends, as a function of what it observes. *)

Definition structure_delta (w : World) (root : Path) : Delta :=
  dapp (printed "🔍 Validating egg folder structure...")
    (dconcat ((λ dir_path,
       if path_exists w (root // dir_path)
       then success ("✓ Directory exists: " +:+ dir_path)
       else error ("✗ Missing directory: " +:+ dir_path)) <$> required_dirs)).

Definition crate_delta (w : World) (root : Path) (crate : string) : Delta :=
  dapp
    (if path_exists w (root // "crates" // crate // "Cargo.toml")
     then success ("✓ " +:+ crate +:+ "/Cargo.toml exists")
     else error ("✗ " +:+ crate +:+ "/Cargo.toml missing"))
    (if path_exists w (root // "crates" // crate // "src" // "lib.rs")
     then success ("✓ " +:+ crate +:+ "/src/lib.rs exists")
     else error ("✗ " +:+ crate +:+ "/src/lib.rs missing")).

Definition crate_files_delta (w : World) (root : Path) : Delta :=
  dapp (printed (Str.nl +:+ "🔍 Validating crate files..."))
    (dconcat (crate_delta w root <$> crates)).

Definition examples_delta (w : World) (root : Path) : Delta :=
  dapp (printed (Str.nl +:+ "🔍 Validating examples..."))
    (dconcat ((λ example,
       if path_exists w (root // "examples" // example)
       then success ("✓ Example exists: " +:+ example)
       else error ("✗ Missing example: " +:+ example)) <$> required_examples)).

Definition members_delta (content : string) : Delta :=
  dconcat ((λ member,
    if Str.contains member content
    then success ("✓ Workspace member: " +:+ member)
    else error ("✗ Missing workspace member: " +:+ member))
    <$> required_members).

Definition workspace_delta (w : World) (root : Path) : Delta :=
  dapp (printed (Str.nl +:+ "🔍 Validating workspace configuration..."))
    (match lookup_path (fs w) (root // "Cargo.toml") with
     | None => error "✗ Root Cargo.toml missing"
     | Some (TextFile content) => members_delta content
     | Some _ => dnil
     end).

Definition workspace_exn (w : World) (root : Path) : option exn :=
  if path_exists w (root // "Cargo.toml")
  then read_exn w (root // "Cargo.toml")
  else None.

Definition docker_delta (w : World) (root : Path) : Delta :=
  dapp (printed (Str.nl +:+ "🔍 Validating Docker configuration..."))
  (dapp (if path_exists w (root // "Dockerfile")
         then success "✓ Dockerfile exists"
         else warning "⚠ Dockerfile missing")
  (dapp (if path_exists w (root // "docker-compose.yml")
         then success "✓ docker-compose.yml exists"
         else warning "⚠ docker-compose.yml missing")
        (if path_exists w (root // ".dockerignore")
         then success "✓ .dockerignore exists"
         else warning "⚠ .dockerignore missing"))).

Definition jobs_delta (content : string) : Delta :=
  dconcat ((λ job,
    if Str.contains (job +:+ ":") content
    then success ("✓ CI job defined: " +:+ job)
    else warning ("⚠ CI job missing: " +:+ job)) <$> required_jobs).

Definition ci_delta (w : World) (root : Path) : Delta :=
  dapp (printed (Str.nl +:+ "🔍 Validating CI/CD workflow..."))
    (match lookup_path (fs w) (root // ".github" // "workflows" // "ci.yml") with
     | None => error "✗ CI workflow missing"
     | Some (TextFile content) =>
         dapp (success "✓ CI workflow exists") (jobs_delta content)
     | Some _ => success "✓ CI workflow exists"
     end).

Definition ci_exn (w : World) (root : Path) : option exn :=
  if path_exists w (root // ".github" // "workflows" // "ci.yml")
  then read_exn w (root // ".github" // "workflows" // "ci.yml")
  else None.

Definition documentation_delta (w : World) (root : Path) : Delta :=
  dapp (printed (Str.nl +:+ "🔍 Validating documentation..."))
    (dconcat ((λ doc,
       if path_exists w (root // doc)
       then success ("✓ Documentation: " +:+ doc)
       else warning ("⚠ Missing documentation: " +:+ doc)) <$> docs)).

Definition cargo_delta (w : World) : Delta :=
  dapp (printed (Str.nl +:+ "🔍 Checking cargo build capability..."))
    (match cargo_check w with
     | Completed returncode stderr =>
         if (returncode =? 0)%Z then success "✓ Cargo check passed"
         else warning ("⚠ Cargo check failed: " +:+ Str.slice_to 200 stderr)
     | RaisesFileNotFoundError =>
         warning "⚠ Cargo not found - skipping build check"
     | RaisesTimeoutExpired => warning "⚠ Cargo check timed out"
     | RaisesException str_e => warning ("⚠ Cargo check error: " +:+ str_e)
     end).

(** The build check returns [False] only when the tool ran and failed. *)
Definition cargo_flag (w : World) : bool :=
  match cargo_check w with
  | Completed returncode _ => (returncode =? 0)%Z
  | _ => true
  end.

(** The build check did not succeed. *)
Definition cargo_failed (o : run_outcome) : Prop :=
  match o with
  | Completed returncode _ => returncode ≠ 0%Z
  | _ => True
  end.

(** The checks in the order [run_all_validations] calls them, each with
    what it appends and the exception that ends it, if any. *)
Definition check_specs (w : World) (root : Path) : list (Delta * option exn) :=
  [ (structure_delta w root, None);
    (crate_files_delta w root, None);
    (examples_delta w root, None);
    (workspace_delta w root, workspace_exn w root);
    (docker_delta w root, None);
    (ci_delta w root, ci_exn w root);
    (documentation_delta w root, None);
    (cargo_delta w, None) ].

(** Calls in sequence stop at the first exception. *)
Fixpoint seq_specs (specs : list (Delta * option exn)) : Delta * option exn :=
  match specs with
  | [] => (dnil, None)
  | (d, Some e) :: _ => (d, Some e)
  | (d, None) :: specs' =>
      let '(d', e) := seq_specs specs' in (dapp d d', e)
  end.

(** What the five checks that record errors return: whether the errors
    list is still empty. *)
Definition no_errors (s : Proc) : bool := (length (errors (self s)) =? 0)%nat.

Definition spec_result {A} (e : option exn) (a : A) : result A :=
  match e with
  | Some e => Raise e
  | None => Ret a
  end.

Definition check_result (e : option exn) (s' : Proc) : result bool :=
  spec_result e (no_errors s').

(** What [for validation in validations: validation()] appends from a
    validator rooted at [root], and the exception that ends it, if any. *)
Definition checks_spec (w : World) (root : Path) : Delta * option exn :=
  seq_specs (check_specs w root).

(** A method runs as a specification says, on every validator rooted at
    [root]. *)
Definition runs_as (root : Path) (m : M bool) (spec : Delta * option exn)
  : Prop :=
  ∀ s, egg_root (self s) = root →
    ∃ b, m s = (spec_result spec.2 b, extend s spec.1).

(** Printing alone: the console grows, the object stays. *)
Definition put (s : Proc) (lines : list string) : Proc :=
  {| self := self s; stdout := stdout s ++ lines |}.

(** ** The report *)

Inductive verdict : Type := FAILED | PASSED_WITH_WARNINGS | PASSED.

Definition verdict_of (v : EggValidator) : verdict :=
  match errors v, warnings v with
  | _ :: _, _ => FAILED
  | [], _ :: _ => PASSED_WITH_WARNINGS
  | [], [] => PASSED
  end.

(** The line [print_report] ends with. *)
Definition verdict_line (x : verdict) : string :=
  match x with
  | FAILED => "❌ VALIDATION FAILED"
  | PASSED_WITH_WARNINGS => "⚠️  VALIDATION PASSED WITH WARNINGS"
  | PASSED => "✅ VALIDATION PASSED"
  end.

(** The lines [print_report] prints before the verdict. *)
Definition report_body (v : EggValidator) : list string :=
  [ Str.nl +:+ Str.repeat "=" 60; "📊 VALIDATION REPORT"; Str.repeat "=" 60 ]
  ++ (if truthy (successes v)
      then [ Str.nl +:+ "✅ Successes ("
             +:+ Str.of_nat (length (successes v)) +:+ "):" ]
           ++ ((λ success, "  " +:+ success) <$> take 10 (successes v))
           ++ (if (10 <? length (successes v))%nat
               then [ "  ... and " +:+ Str.of_nat (length (successes v) - 10)
                      +:+ " more" ]
               else [])
      else [])
  ++ (if truthy (warnings v)
      then [ Str.nl +:+ "⚠️  Warnings ("
             +:+ Str.of_nat (length (warnings v)) +:+ "):" ]
           ++ ((λ warning, "  " +:+ warning) <$> warnings v)
      else [])
  ++ (if truthy (errors v)
      then [ Str.nl +:+ "❌ Errors ("
             +:+ Str.of_nat (length (errors v)) +:+ "):" ]
           ++ ((λ error, "  " +:+ error) <$> errors v)
      else [])
  ++ [ Str.nl +:+ Str.repeat "=" 60 ].

Definition report_delta (v : EggValidator) : Delta :=
  mkDelta [] [] [] (report_body v ++ [verdict_line (verdict_of v)]).

(** ** Notions used in the statements *)

(** The path holds a file whose text can be read. *)
Definition is_text_file (w : World) (p : Path) : Prop :=
  ∃ content, lookup_path (fs w) p = Some (TextFile content).

(** Whatever is at the path can be read as text. *)
Definition readable_if_present (w : World) (p : Path) : Prop :=
  path_exists w p = true → is_text_file w p.

(** The three files [validate_docker_config] looks for. *)
Definition optional_files : list string :=
  [ "Dockerfile"; "docker-compose.yml"; ".dockerignore" ].

(** Everything whose absence is an error is there: the directories, the
    crate files, the examples, the workspace members in the root
    [Cargo.toml], and the CI workflow file. *)
Record required_present (w : World) (root : Path) : Prop := {
  present_root : path_exists w root = true;
  present_dirs :
    ∀ d, d ∈ required_dirs → path_exists w (root // d) = true;
  present_crate_files :
    ∀ c, c ∈ crates →
      path_exists w (root // "crates" // c // "Cargo.toml") = true
      ∧ path_exists w (root // "crates" // c // "src" // "lib.rs") = true;
  present_examples :
    ∀ e, e ∈ required_examples →
      path_exists w (root // "examples" // e) = true;
  present_members :
    ∃ content,
      lookup_path (fs w) (root // "Cargo.toml") = Some (TextFile content)
      ∧ ∀ m, m ∈ required_members → Str.contains m content = true;
  present_ci_workflow :
    is_text_file w (root // ".github" // "workflows" // "ci.yml")
}.

(** What the validator can tell of a file it reads: that it is missing,
    its text, or the way reading fails. *)
Definition same_read (a b : option node) : Prop :=
  match a, b with
  | None, None => True
  | Some (TextFile c1), Some (TextFile c2) => c1 = c2
  | Some (Dir _), Some (Dir _) => True
  | Some Unreadable, Some Unreadable => True
  | _, _ => False
  end.

(** Two worlds in which every question the program asks has the same
    answer. *)
Record same_observations (w1 w2 : World) : Prop := {
  obs_root : path_exists w1 (script_dir w1) = path_exists w2 (script_dir w2);
  obs_dirs :
    ∀ d, d ∈ required_dirs →
      path_exists w1 (script_dir w1 // d) = path_exists w2 (script_dir w2 // d);
  obs_crate_cargo :
    ∀ c, c ∈ crates →
      path_exists w1 (script_dir w1 // "crates" // c // "Cargo.toml")
      = path_exists w2 (script_dir w2 // "crates" // c // "Cargo.toml");
  obs_crate_lib :
    ∀ c, c ∈ crates →
      path_exists w1 (script_dir w1 // "crates" // c // "src" // "lib.rs")
      = path_exists w2 (script_dir w2 // "crates" // c // "src" // "lib.rs");
  obs_examples :
    ∀ e, e ∈ required_examples →
      path_exists w1 (script_dir w1 // "examples" // e)
      = path_exists w2 (script_dir w2 // "examples" // e);
  obs_cargo_toml :
    same_read (lookup_path (fs w1) (script_dir w1 // "Cargo.toml"))
              (lookup_path (fs w2) (script_dir w2 // "Cargo.toml"));
  obs_optional :
    ∀ f, f ∈ optional_files →
      path_exists w1 (script_dir w1 // f) = path_exists w2 (script_dir w2 // f);
  obs_ci_workflow :
    same_read
      (lookup_path (fs w1) (script_dir w1 // ".github" // "workflows" // "ci.yml"))
      (lookup_path (fs w2) (script_dir w2 // ".github" // "workflows" // "ci.yml"));
  obs_docs :
    ∀ d, d ∈ docs →
      path_exists w1 (script_dir w1 // d) = path_exists w2 (script_dir w2 // d);
  obs_cargo_check : cargo_check w1 = cargo_check w2
}.

(** The three result lists of a validator. *)
Definition result_lists (v : EggValidator)
  : list string * list string * list string :=
  (successes v, warnings v, errors v).

(** The state [main] runs the validations from. *)
Definition fresh (w : World) (out : list string) : Proc :=
  {| self := EggValidator_init (script_dir w); stdout := out |}.

(** ** Sample trees *)

Definition crate_dir : node :=
  Dir [ ("Cargo.toml", TextFile "[package]");
        ("src", Dir [ ("lib.rs", TextFile "") ]) ].

(** A complete tree, optionally without [tests] or without [Dockerfile]. *)
Definition sample_tree (with_tests with_dockerfile : bool) : node :=
  Dir ([ ("crates", Dir [ ("limit-core", crate_dir);
                          ("limit-storage", crate_dir);
                          ("limit-orchestration", crate_dir);
                          ("limit-agents", crate_dir) ]);
         ("services", Dir [ ("api", Dir []) ]);
         ("examples", Dir [ ("basic_session.rs", TextFile "");
                            ("agent_benchmark.rs", TextFile "");
                            ("federated_orchestration.rs", TextFile "") ]) ]
       ++ (if with_tests then [ ("tests", Dir []) ] else [])
       ++ [ (".github",
             Dir [ ("workflows",
                    Dir [ ("ci.yml",
                           TextFile "jobs: test: fmt: clippy: build:") ]) ]);
            ("Cargo.toml",
             TextFile "members = [crates/limit-core, crates/limit-storage, crates/limit-orchestration, crates/limit-agents, services/api]") ]
       ++ (if with_dockerfile then [ ("Dockerfile", TextFile "") ] else [])
       ++ [ ("docker-compose.yml", TextFile "");
            (".dockerignore", TextFile "");
            ("README.md", TextFile "");
            ("QUICK_START.md", TextFile "");
            ("IMPLEMENTATION_COMPLETE.md", TextFile "");
            ("FEDERATED_ARCHITECTURE.md", TextFile "") ]).

Definition sample_world (with_tests with_dockerfile : bool)
    (outcome : run_outcome) : World :=
  {| fs := Dir [ ("egg", sample_tree with_tests with_dockerfile) ];
     script_dir := ["egg"];
     cargo_check := outcome |}.

(** A world with nothing in it, and one that holds only a CI workflow. *)
Definition empty_world : World :=
  {| fs := Dir []; script_dir := []; cargo_check := RaisesFileNotFoundError |}.

Definition ci_only_world (content : string) : World :=
  {| fs := Dir [ (".github",
                  Dir [ ("workflows", Dir [ ("ci.yml", TextFile content) ]) ]) ];
     script_dir := [];
     cargo_check := RaisesFileNotFoundError |}.

(** A tree in which the root [Cargo.toml] is a directory. *)
Definition unreadable_world : World :=
  {| fs := Dir [ ("Cargo.toml", Dir []) ];
     script_dir := [];
     cargo_check := RaisesFileNotFoundError |}.

(** The same complete tree at another place, among files the validator
    never looks at. *)
Definition other_world : World :=
  {| fs := Dir [ ("notes.txt", TextFile "unrelated");
                 ("work", Dir [ ("egg", sample_tree true true);
                                ("scratch", Dir []) ]) ];
     script_dir := ["work"; "egg"];
     cargo_check := Completed 0 "" |}.

(** ** Notions used in the further statements *)

(** The number of code points of a text: the bytes that begin one. *)
Fixpoint code_points (s : string) : nat :=
  match s with
  | EmptyString => 0
  | String c s' =>
      if Str.is_continuation c then code_points s' else S (code_points s')
  end.

(** [needle] occurs in [hay]. *)
Definition substring (needle hay : string) : Prop :=
  ∃ before after, hay = before +:+ needle +:+ after.

(** How many entries a validator holds. *)
Definition entries (v : EggValidator) : nat :=
  length (successes v) + length (warnings v) + length (errors v).

(** Nothing the validator looks for is missing, every CI job is defined and
    the build check succeeds. *)
Record all_present (w : World) (root : Path) : Prop := {
  all_required : required_present w root;
  all_optional :
    ∀ f, f ∈ optional_files → path_exists w (root // f) = true;
  all_docs : ∀ d, d ∈ docs → path_exists w (root // d) = true;
  all_jobs :
    ∃ content,
      lookup_path (fs w) (root // ".github" // "workflows" // "ci.yml")
      = Some (TextFile content)
      ∧ ∀ job, job ∈ required_jobs →
          Str.contains (job +:+ ":") content = true;
  all_cargo : ∃ stderr, cargo_check w = Completed 0 stderr
}.

(** A tree in which the CI workflow is a directory. *)
Definition unreadable_ci_world : World :=
  {| fs := Dir [ (".github",
                  Dir [ ("workflows", Dir [ ("ci.yml", Dir []) ]) ]) ];
     script_dir := [];
     cargo_check := RaisesFileNotFoundError |}.

(** How many entries a run appends. *)
Definition dsize (d : Delta) : nat :=
  length (d_successes d) + length (d_warnings d) + length (d_errors d).

(** A tree in which the root [Cargo.toml] cannot be read. *)
Definition locked_cargo_world : World :=
  {| fs := Dir [ ("egg", Dir [ ("Cargo.toml", Unreadable);
                               ("tests", Dir []) ]) ];
     script_dir := ["egg"];
     cargo_check := Completed 0 "" |}.

(** * Properties *)

(** ** Appended entries form a monoid acting on states *)

Lemma dapp_nil_l d : dapp dnil d = d.
Proof. by destruct d. Qed.

Lemma dapp_nil_r d : dapp d dnil = d.
Proof. destruct d. unfold dapp. cbn. by rewrite !app_nil_r. Qed.

Lemma dapp_assoc a b c : dapp (dapp a b) c = dapp a (dapp b c).
Proof. unfold dapp. cbn. by rewrite <- !app_assoc. Qed.

Lemma extend_dnil s : extend s dnil = s.
Proof. destruct s as [[] ?]. unfold extend. cbn. by rewrite !app_nil_r. Qed.

Lemma extend_dapp s a b : extend (extend s a) b = extend s (dapp a b).
Proof. unfold extend. cbn. by rewrite <- !app_assoc. Qed.

Lemma d_errors_dconcat ds : d_errors (dconcat ds) = concat (d_errors <$> ds).
Proof. induction ds as [|d ds IH]; [done|]. cbn. f_equal. apply IH. Qed.

Lemma d_warnings_dconcat ds :
  d_warnings (dconcat ds) = concat (d_warnings <$> ds).
Proof. induction ds as [|d ds IH]; [done|]. cbn. f_equal. apply IH. Qed.

(** ** Running the primitives *)

Lemma mbind_run {A B} (m : M A) (f : A → M B) s :
  (m ≫= f) s = match m s with
               | (Ret a, s') => f a s'
               | (Raise e, s') => (Raise e, s')
               end.
Proof. reflexivity. Qed.

Lemma mret_run {A} (a : A) s : (mret a : M A) s = (Ret a, s).
Proof. reflexivity. Qed.

Lemma get_self_run s : get_self s = (Ret (self s), s).
Proof. reflexivity. Qed.

Lemma print_run line s : print line s = (Ret (), extend s (printed line)).
Proof. destruct s as [[] ?]. unfold print, extend. cbn. by rewrite !app_nil_r. Qed.

Lemma errors_append_run msg s :
  errors_append msg s = (Ret (), extend s (error msg)).
Proof.
  destruct s as [[] ?]. unfold errors_append, update, extend. cbn.
  by rewrite !app_nil_r.
Qed.

Lemma warnings_append_run msg s :
  warnings_append msg s = (Ret (), extend s (warning msg)).
Proof.
  destruct s as [[] ?]. unfold warnings_append, update, extend. cbn.
  by rewrite !app_nil_r.
Qed.

Lemma successes_append_run msg s :
  successes_append msg s = (Ret (), extend s (success msg)).
Proof.
  destruct s as [[] ?]. unfold successes_append, update, extend. cbn.
  by rewrite !app_nil_r.
Qed.

Lemma for_each_run {A} root (body : A → M unit) (δ : A → Delta) xs s :
  (∀ x s, egg_root (self s) = root → body x s = (Ret (), extend s (δ x))) →
  egg_root (self s) = root →
  for_each xs body s = (Ret (), extend s (dconcat (δ <$> xs))).
Proof.
  intros Hbody. revert s. induction xs as [|x xs IH]; intros s Hroot.
  - cbn. by rewrite extend_dnil.
  - cbn [for_each fmap list_fmap dconcat foldr].
    rewrite mbind_run, Hbody by done. cbv beta iota.
    rewrite IH by done. by rewrite extend_dapp.
Qed.

Ltac mrun :=
  repeat first
    [ rewrite mbind_run
    | rewrite mret_run
    | rewrite get_self_run
    | rewrite print_run
    | rewrite errors_append_run
    | rewrite warnings_append_run
    | rewrite successes_append_run
    | progress cbv beta iota zeta ].

Lemma validate_structure_run w s :
  let s' := extend s (structure_delta w (egg_root (self s))) in
  validate_structure w s = (Ret (no_errors s'), s').
Proof.
  intros s'. subst s'. unfold validate_structure, structure_delta. mrun.
  erewrite (for_each_run (egg_root (self s))); [| |done].
  - mrun. rewrite !extend_dapp. reflexivity.
  - intros x s0 Hroot. mrun. rewrite Hroot. destruct (path_exists _ _); by mrun.
Qed.

Lemma validate_crate_files_run w s :
  let s' := extend s (crate_files_delta w (egg_root (self s))) in
  validate_crate_files w s = (Ret (no_errors s'), s').
Proof.
  intros s'. subst s'. unfold validate_crate_files, crate_files_delta. mrun.
  erewrite (for_each_run (egg_root (self s))); [| |done].
  - mrun. rewrite !extend_dapp. reflexivity.
  - intros x s0 Hroot. unfold crate_delta. mrun. rewrite Hroot.
    destruct (path_exists _ _); mrun; destruct (path_exists _ _); mrun;
      by rewrite extend_dapp.
Qed.

Lemma validate_examples_run w s :
  let s' := extend s (examples_delta w (egg_root (self s))) in
  validate_examples w s = (Ret (no_errors s'), s').
Proof.
  intros s'. subst s'. unfold validate_examples, examples_delta. mrun.
  erewrite (for_each_run (egg_root (self s))); [| |done].
  - mrun. rewrite !extend_dapp. reflexivity.
  - intros x s0 Hroot. cbn [extend self egg_root].
    destruct (path_exists _ _); by mrun.
Qed.

Lemma validate_workspace_config_run w s :
  let s' := extend s (workspace_delta w (egg_root (self s))) in
  validate_workspace_config w s
  = (check_result (workspace_exn w (egg_root (self s))) s', s').
Proof.
  intros s'. subst s'.
  unfold validate_workspace_config, workspace_delta, workspace_exn, read_exn,
    read_text, path_exists.
  mrun. cbn [extend self egg_root].
  destruct (lookup_path _ _) as [[| |]|]; cbn [negb]; mrun;
    rewrite ?extend_dapp; try reflexivity.
  - unfold members_delta. erewrite (for_each_run (egg_root (self s))); [| |done].
    + mrun. rewrite !extend_dapp. reflexivity.
    + intros x s0 Hroot. cbv beta. destruct (Str.contains _ _); by mrun.
  - cbn. unfold no_errors. cbn. rewrite !length_app. cbn.
    by rewrite Nat.add_1_r.
Qed.

Lemma validate_docker_config_run w s :
  validate_docker_config w s
  = (Ret true, extend s (docker_delta w (egg_root (self s)))).
Proof.
  unfold validate_docker_config, docker_delta. mrun. cbn [extend self egg_root].
  destruct (path_exists _ _); mrun; cbn [extend self egg_root];
    destruct (path_exists _ _); mrun; cbn [extend self egg_root];
    destruct (path_exists _ _); mrun; by rewrite !extend_dapp.
Qed.

Lemma validate_ci_workflow_run w s :
  let s' := extend s (ci_delta w (egg_root (self s))) in
  validate_ci_workflow w s = (check_result (ci_exn w (egg_root (self s))) s', s').
Proof.
  intros s'. subst s'.
  unfold validate_ci_workflow, ci_delta, ci_exn, read_exn, read_text,
    path_exists.
  mrun. cbn [extend self egg_root].
  destruct (lookup_path _ _) as [[| |]|]; mrun; rewrite ?extend_dapp;
    try reflexivity.
  unfold jobs_delta. erewrite (for_each_run (egg_root (self s))); [| |done].
  - mrun. rewrite !extend_dapp. reflexivity.
  - intros x s0 Hroot. cbv beta. destruct (Str.contains _ _); by mrun.
Qed.

Lemma validate_documentation_run w s :
  validate_documentation w s
  = (Ret true, extend s (documentation_delta w (egg_root (self s)))).
Proof.
  unfold validate_documentation, documentation_delta. mrun.
  erewrite (for_each_run (egg_root (self s))); [| |done].
  - mrun. rewrite !extend_dapp. reflexivity.
  - intros x s0 Hroot. mrun. rewrite Hroot. destruct (path_exists _ _); by mrun.
Qed.

Lemma check_cargo_build_run w s :
  check_cargo_build w s = (Ret (cargo_flag w), extend s (cargo_delta w)).
Proof.
  unfold check_cargo_build, cargo_delta, cargo_flag. mrun.
  destruct (cargo_check w) as [returncode stderr| | |str_e]; mrun;
    rewrite ?extend_dapp; try reflexivity.
  destruct (returncode =? 0)%Z; mrun; by rewrite extend_dapp.
Qed.

(** ** Running the report *)

Lemma put_nil s : put s [] = s.
Proof. destruct s. unfold put. cbn. by rewrite app_nil_r. Qed.

Lemma put_put s a b : put (put s a) b = put s (a ++ b).
Proof. unfold put. cbn. by rewrite <- app_assoc. Qed.

Lemma extend_put s lines : extend s (mkDelta [] [] [] lines) = put s lines.
Proof. destruct s as [[] ?]. unfold extend, put. cbn. by rewrite !app_nil_r. Qed.

Lemma print_put line s : print line s = (Ret (), put s [line]).
Proof. reflexivity. Qed.

Lemma for_each_print {A} (f : A → string) xs s :
  for_each xs (λ x, print (f x)) s = (Ret (), put s (f <$> xs)).
Proof.
  revert s. induction xs as [|x xs IH]; intros s.
  - cbn. by rewrite put_nil.
  - cbn [for_each fmap list_fmap]. rewrite mbind_run, print_put. cbv beta iota.
    rewrite IH. by rewrite put_put.
Qed.

Ltac prun :=
  repeat first
    [ rewrite mbind_run
    | rewrite mret_run
    | rewrite get_self_run
    | rewrite print_put
    | rewrite for_each_print
    | rewrite put_put
    | progress cbv beta iota zeta
    | progress cbn [self put truthy] ].

Lemma print_report_run s :
  print_report s
  = (Ret (negb (truthy (errors (self s)))), extend s (report_delta (self s))).
Proof.
  unfold print_report, report_delta, report_body, verdict_of.
  rewrite extend_put. prun.
  destruct (successes (self s)) as [|s0 ss] eqn:Hs; prun;
    [|destruct (10 <? length (s0 :: ss))%nat; prun];
    (destruct (warnings (self s)) as [|w0 ws] eqn:Hw; prun);
    (destruct (errors (self s)) as [|e0 es] eqn:He; prun);
    cbn [negb verdict_line]; do 2 f_equal;
    rewrite <- ?app_assoc; cbn [app]; rewrite ?app_nil_r; reflexivity.
Qed.

(** ** Running all the checks *)

Lemma validations_specs w root :
  Forall2 (runs_as root) (validations w) (check_specs w root).
Proof.
  unfold validations, check_specs.
  constructor; [intros s <-; eexists; apply validate_structure_run|].
  constructor; [intros s <-; eexists; apply validate_crate_files_run|].
  constructor; [intros s <-; eexists; apply validate_examples_run|].
  constructor; [intros s <-; eexists; apply validate_workspace_config_run|].
  constructor; [intros s <-; eexists; apply validate_docker_config_run|].
  constructor; [intros s <-; eexists; apply validate_ci_workflow_run|].
  constructor; [intros s <-; eexists; apply validate_documentation_run|].
  constructor; [intros s <-; eexists; apply check_cargo_build_run|].
  constructor.
Qed.

Lemma calls_run root (ms : list (M bool)) specs :
  Forall2 (runs_as root) ms specs →
  ∀ s, egg_root (self s) = root →
    for_each ms (λ validation, validation ;; mret ()) s
    = (spec_result (seq_specs specs).2 (), extend s (seq_specs specs).1).
Proof.
  induction 1 as [|m [d e] ms specs Hm _ IH]; intros s Hroot.
  - cbn. by rewrite extend_dnil.
  - cbn [for_each]. destruct (Hm s Hroot) as [b Hb]. cbn [fst snd] in Hb.
    rewrite !mbind_run, Hb.
    destruct e as [e|]; cbn [spec_result seq_specs fst snd]; [done|].
    mrun. rewrite IH by done.
    destruct (seq_specs specs) as [d' e']. cbn [fst snd].
    by rewrite extend_dapp.
Qed.

Lemma run_all_validations_run w s :
  let spec := checks_spec w (egg_root (self s)) in
  let s1 :=
    extend s
      (dapp (printed ("🚀 Starting Quantum LIMIT-Graph Egg Validation"
                      +:+ Str.nl)) spec.1) in
  run_all_validations w s
  = match spec.2 with
    | Some e => (Raise e, s1)
    | None => (Ret (negb (truthy (errors (self s1)))),
               extend s1 (report_delta (self s1)))
    end.
Proof.
  intros spec s1. subst spec s1. unfold run_all_validations, checks_spec.
  mrun.
  rewrite (calls_run (egg_root (self s)) _ _ (validations_specs w _)) by done.
  rewrite extend_dapp.
  destruct (seq_specs _) as [d [e|]]; cbn [spec_result fst snd]; [done|].
  cbv beta iota. apply print_report_run.
Qed.

Lemma main_root_missing w out :
  path_exists w (script_dir w) = false →
  main w out
  = (Raise (SystemExit 1), None,
     out ++ ["❌ Error: Egg root directory not found: "
             +:+ path_str (script_dir w)]).
Proof. intros H. unfold main. by rewrite H. Qed.

Lemma main_run w out :
  path_exists w (script_dir w) = true →
  main w out
  = match run_all_validations w (fresh w out) with
    | (Ret success, s) =>
        (Raise (SystemExit (if success then 0 else 1)), Some (self s), stdout s)
    | (Raise e, s) => (Raise e, Some (self s), stdout s)
    end.
Proof. intros H. unfold main. by rewrite H. Qed.

(** ** What the appended entries hold *)

Lemma no_errors_true s : no_errors s = true ↔ errors (self s) = [].
Proof. unfold no_errors. by destruct (errors (self s)). Qed.

Lemma extend_prefix s d :
  errors (self s) `prefix_of` errors (self (extend s d))
  ∧ warnings (self s) `prefix_of` warnings (self (extend s d))
  ∧ successes (self s) `prefix_of` successes (self (extend s d)).
Proof. cbn. repeat split; by apply prefix_app_r. Qed.

Lemma d_errors_dconcat_nil {A} (f : A → Delta) xs :
  (∀ x, x ∈ xs → d_errors (f x) = []) →
  d_errors (dconcat (f <$> xs)) = [].
Proof.
  intros H. rewrite d_errors_dconcat.
  induction xs as [|x xs IH]; [done|]. cbn.
  rewrite H by (rewrite elem_of_cons; by left). cbn. apply IH.
  intros y Hy. apply H. rewrite elem_of_cons; by right.
Qed.

Lemma d_errors_classified {A} (c : A → bool) (a b : A → string) xs :
  d_errors (dconcat ((λ x, if c x then success (a x) else error (b x)) <$> xs))
  = b <$> filter (λ x, c x = false) xs.
Proof.
  rewrite d_errors_dconcat.
  induction xs as [|x xs IH]; [done|].
  rewrite filter_cons. cbn [fmap list_fmap concat]. rewrite IH.
  by destruct (c x).
Qed.

Lemma d_warnings_classified {A} (c : A → bool) (a b : A → string) xs :
  d_warnings
    (dconcat ((λ x, if c x then success (a x) else warning (b x)) <$> xs))
  = b <$> filter (λ x, c x = false) xs.
Proof.
  rewrite d_warnings_dconcat.
  induction xs as [|x xs IH]; [done|].
  rewrite filter_cons. cbn [fmap list_fmap concat]. rewrite IH.
  by destruct (c x).
Qed.

(** ** Substrings *)

Lemma prefix_app_l a b h :
  String.prefix (a +:+ b) h = true → String.prefix a h = true.
Proof.
  revert h. induction a as [|c a IH]; intros h; [by destruct h|].
  destruct h as [|c' h]; [done|].
  change (String c a +:+ b) with (String c (a +:+ b)). cbn [String.prefix].
  destruct (Ascii.ascii_dec c c'); [apply IH|done].
Qed.

Lemma prefix_true_iff a h :
  String.prefix a h = true ↔ ∃ rest, h = a +:+ rest.
Proof.
  revert h. induction a as [|c a IH]; intros h.
  - split; [by exists h|by destruct h].
  - destruct h as [|c' h]; [split; [done|by intros [? ?]]|].
    cbn [String.prefix]. destruct (Ascii.ascii_dec c c') as [<-|Hne].
    + rewrite IH. split; intros [rest Hrest]; exists rest.
      * by rewrite Hrest.
      * by injection Hrest.
    + split; [done|]. intros [rest Hrest]. by injection Hrest.
Qed.

(** [Str.contains] is the substring test. *)
Lemma contains_true_iff needle hay :
  Str.contains needle hay = true
  ↔ ∃ before after, hay = before +:+ needle +:+ after.
Proof.
  induction hay as [|c hay IH]; cbn [Str.contains].
  - destruct (String.prefix needle "") eqn:Hp.
    + apply prefix_true_iff in Hp as [rest Hrest]. split; [|done].
      intros _. by exists "", rest.
    + split; [done|]. intros (before & after & H).
      destruct before; [|done].
      assert (String.prefix needle "" = true); [|congruence].
      apply prefix_true_iff. by exists after.
  - destruct (String.prefix needle (String c hay)) eqn:Hp.
    + apply prefix_true_iff in Hp as [rest Hrest]. split; [|done].
      intros _. by exists "", rest.
    + rewrite IH. split.
      * intros (before & after & ->). by exists (String c before), after.
      * intros (before & after & H). destruct before as [|c' before].
        { assert (String.prefix needle (String c hay) = true); [|congruence].
          apply prefix_true_iff. by exists after. }
        injection H as _ ->. by exists before, after.
Qed.

Lemma contains_app_l a b h :
  Str.contains (a +:+ b) h = true → Str.contains a h = true.
Proof.
  induction h as [|c h IH].
  - cbn [Str.contains].
    destruct (String.prefix (a +:+ b) "") eqn:Hp; [|done].
    intros _. by rewrite (prefix_app_l _ _ _ Hp).
  - cbn [Str.contains].
    destruct (String.prefix (a +:+ b) (String c h)) eqn:Hp.
    + intros _. by rewrite (prefix_app_l _ _ _ Hp).
    + intros H. rewrite (IH H). by destruct (String.prefix a (String c h)).
Qed.

(** ** The checks, one by one *)

Lemma path_exists_false w p :
  path_exists w p = false ↔ lookup_path (fs w) p = None.
Proof. unfold path_exists. by destruct (lookup_path (fs w) p). Qed.

(** C10.  When the root [Cargo.toml] does not exist, the workspace check
    appends the one error [✗ Root Cargo.toml missing] and returns [False]
    at once: the members are not looked for, so nothing else is appended
    to the errors, and nothing at all to the warnings and the successes. *)
Theorem missing_root_cargo_toml (w : World) (s : Proc) :
  path_exists w (egg_root (self s) // "Cargo.toml") = false →
  ∃ s', validate_workspace_config w s = (Ret false, s')
    ∧ errors (self s') = errors (self s) ++ ["✗ Root Cargo.toml missing"]
    ∧ warnings (self s') = warnings (self s)
    ∧ successes (self s') = successes (self s).
Proof.
  intros H. eexists. split; [|split; [|split]].
  - rewrite validate_workspace_config_run.
    unfold workspace_exn, workspace_delta. rewrite H.
    apply path_exists_false in H. rewrite H.
    unfold check_result, spec_result. f_equal. f_equal.
    apply not_true_is_false. rewrite no_errors_true. cbn.
    by destruct (errors (self s)).
  - reflexivity.
  - cbn. by rewrite app_nil_r.
  - cbn. by rewrite app_nil_r.
Qed.

Lemma missing_root_cargo_toml_witness :
  ∃ s', validate_workspace_config (mkWorld (Dir []) [] RaisesTimeoutExpired)
          (fresh (mkWorld (Dir []) [] RaisesTimeoutExpired) [])
        = (Ret false, s')
    ∧ errors (self s') = ["✗ Root Cargo.toml missing"]
    ∧ warnings (self s') = []
    ∧ successes (self s') = [].
Proof.
  apply (missing_root_cargo_toml (mkWorld (Dir []) [] RaisesTimeoutExpired)
           (fresh (mkWorld (Dir []) [] RaisesTimeoutExpired) [])).
  reflexivity.
Defined.

(** C3.  Whenever the build check does not succeed (the tool exits with a
    non-zero status, is not found, times out, or raises anything else), the
    check returns normally having appended one warning and nothing else:
    the errors list is as it was, so the check cannot make the validation
    fail. *)
Theorem build_check_only_warns (w : World) (s : Proc) :
  cargo_failed (cargo_check w) →
  ∃ b s' msg, check_cargo_build w s = (Ret b, s')
    ∧ errors (self s') = errors (self s)
    ∧ warnings (self s') = warnings (self s) ++ [msg]
    ∧ successes (self s') = successes (self s).
Proof.
  intros Hfail. rewrite check_cargo_build_run. unfold cargo_delta.
  destruct (cargo_check w) as [returncode stderr| | |str_e]; cbn in Hfail.
  - apply Z.eqb_neq in Hfail. rewrite Hfail.
    eexists _, _, _. split; [reflexivity|]. cbn. by rewrite !app_nil_r.
  - eexists _, _, _. split; [reflexivity|]. cbn. by rewrite !app_nil_r.
  - eexists _, _, _. split; [reflexivity|]. cbn. by rewrite !app_nil_r.
  - eexists _, _, _. split; [reflexivity|]. cbn. by rewrite !app_nil_r.
Qed.

Lemma build_check_only_warns_witness :
  ∃ b s' msg,
    check_cargo_build (sample_world true true (Completed 101 "error: no lock"))
      (fresh (sample_world true true (Completed 101 "error: no lock")) [])
    = (Ret b, s')
    ∧ errors (self s') = []
    ∧ warnings (self s') = [] ++ [msg]
    ∧ successes (self s') = [].
Proof.
  apply (build_check_only_warns
           (sample_world true true (Completed 101 "error: no lock"))
           (fresh (sample_world true true (Completed 101 "error: no lock")) [])).
  cbn. discriminate.
Defined.

(** C4.  [print_report] always returns, leaves the validator as it is, and
    ends its output with a verdict fixed by the errors and the warnings:
    FAILED, with [False] returned, when there are errors; PASSED WITH
    WARNINGS, with [True], when there are warnings and no errors; PASSED,
    with [True], when there are neither. *)
Theorem print_report_verdict (s : Proc) :
  ∃ b s', print_report s = (Ret b, s')
    ∧ self s' = self s
    ∧ match errors (self s), warnings (self s) with
      | _ :: _, _ =>
          last (stdout s') = Some "❌ VALIDATION FAILED" ∧ b = false
      | [], _ :: _ =>
          last (stdout s') = Some "⚠️  VALIDATION PASSED WITH WARNINGS"
          ∧ b = true
      | [], [] =>
          last (stdout s') = Some "✅ VALIDATION PASSED" ∧ b = true
      end.
Proof.
  eexists _, _. split; [apply print_report_run|].
  unfold report_delta. rewrite extend_put. split; [reflexivity|].
  cbn [put stdout]. rewrite !app_assoc, last_snoc. unfold verdict_of.
  by destruct (errors (self s)), (warnings (self s)).
Qed.

(** C7.  In the CI-workflow check a missing workflow file is an error, and
    nothing else is appended; when the file is there and holds text, each
    required job whose [job:] does not occur in the text is a warning, in
    the order of the jobs, and no error is appended.  A job whose name does
    not occur in the text at all is among those warned about. *)
Theorem ci_workflow_severity (w : World) (s : Proc) :
  let ci_workflow := egg_root (self s) // ".github" // "workflows" // "ci.yml" in
  (path_exists w ci_workflow = false →
   ∃ s', validate_ci_workflow w s = (Ret false, s')
     ∧ errors (self s') = errors (self s) ++ ["✗ CI workflow missing"]
     ∧ warnings (self s') = warnings (self s)
     ∧ successes (self s') = successes (self s))
  ∧ (∀ content, lookup_path (fs w) ci_workflow = Some (TextFile content) →
     ∃ b s', validate_ci_workflow w s = (Ret b, s')
       ∧ errors (self s') = errors (self s)
       ∧ warnings (self s')
         = warnings (self s)
           ++ ((λ job, "⚠ CI job missing: " +:+ job)
               <$> filter (λ job, Str.contains (job +:+ ":") content = false)
                     required_jobs)
       ∧ ∀ job, job ∈ required_jobs → Str.contains job content = false →
           ("⚠ CI job missing: " +:+ job) ∈ warnings (self s')).
Proof.
  intros ci_workflow. subst ci_workflow. split.
  - intros H. eexists. rewrite validate_ci_workflow_run.
    unfold ci_exn, ci_delta. rewrite H.
    apply path_exists_false in H. rewrite H.
    split.
    { unfold check_result, spec_result. do 2 f_equal.
      apply not_true_is_false. rewrite no_errors_true. cbn.
      by destruct (errors (self s)). }
    cbn. by rewrite !app_nil_r.
  - intros content H. eexists _, _. rewrite validate_ci_workflow_run.
    unfold ci_exn, ci_delta, read_exn, path_exists. rewrite H.
    split; [reflexivity|].
    assert (Hw : d_warnings (jobs_delta content)
                 = (λ job, "⚠ CI job missing: " +:+ job)
                   <$> filter (λ job, Str.contains (job +:+ ":") content = false)
                         required_jobs)
      by apply (d_warnings_classified (λ job, Str.contains (job +:+ ":") content)).
    cbn [extend self errors warnings dapp d_errors d_warnings printed success].
    split; [|split].
    + unfold jobs_delta. rewrite d_errors_dconcat_nil; [by rewrite app_nil_r|].
      intros job _. by destruct (Str.contains _ _).
    + by rewrite Hw.
    + intros job Hjob Habsent. rewrite Hw. apply elem_of_app. right.
      apply list_elem_of_fmap_2, list_elem_of_filter. split; [|done].
      destruct (Str.contains (job +:+ ":") content) eqn:Hc; [|done].
      apply contains_app_l in Hc. congruence.
Qed.

Lemma ci_workflow_severity_witness :
  (∃ s', validate_ci_workflow empty_world (fresh empty_world []) = (Ret false, s')
     ∧ errors (self s') = [] ++ ["✗ CI workflow missing"]
     ∧ warnings (self s') = []
     ∧ successes (self s') = [])
  ∧ (∃ b s',
       validate_ci_workflow (ci_only_world "jobs: test: build:")
         (fresh (ci_only_world "jobs: test: build:") [])
       = (Ret b, s')
       ∧ errors (self s') = []
       ∧ warnings (self s') = ["⚠ CI job missing: fmt"; "⚠ CI job missing: clippy"]
       ∧ ("⚠ CI job missing: clippy") ∈ warnings (self s')).
Proof.
  split.
  - apply (proj1 (ci_workflow_severity empty_world (fresh empty_world []))).
    reflexivity.
  - destruct (proj2 (ci_workflow_severity (ci_only_world "jobs: test: build:")
                       (fresh (ci_only_world "jobs: test: build:") []))
                _ eq_refl) as (b & s' & Hrun & He & Hw & Hin).
    exists b, s'. split; [exact Hrun|]. split; [exact He|].
    split; [exact Hw|]. apply (Hin "clippy"); [|reflexivity].
    unfold required_jobs. rewrite !elem_of_cons. auto.
Defined.

(** C8.  Every check, the report and the whole run only append: the
    errors, the warnings and the successes before the call are prefixes of
    those after it, also when the call ends with an exception. *)
Theorem lists_append_only (w : World) (m : M bool) (s : Proc)
    (r : result bool) (s' : Proc) :
  m ∈ validations w ++ [print_report; run_all_validations w] →
  m s = (r, s') →
  errors (self s) `prefix_of` errors (self s')
  ∧ warnings (self s) `prefix_of` warnings (self s')
  ∧ successes (self s) `prefix_of` successes (self s').
Proof.
  intros Hm Hrun.
  assert (∃ d, s' = extend s d) as [d ->]; [|apply extend_prefix].
  apply elem_of_app in Hm as [Hm|Hm].
  - apply list_elem_of_lookup in Hm as [i Hi].
    destruct (Forall2_lookup_l _ _ _ _ _
                (validations_specs w (egg_root (self s))) Hi)
      as ([d e] & _ & Hspec).
    destruct (Hspec s eq_refl) as [b Hb]. rewrite Hb in Hrun.
    exists d. by inversion Hrun.
  - apply elem_of_cons in Hm as [->|Hm].
    + rewrite print_report_run in Hrun. eexists. by inversion Hrun.
    + apply list_elem_of_singleton in Hm as ->.
      rewrite run_all_validations_run in Hrun.
      destruct (checks_spec w (egg_root (self s))).2;
        inversion Hrun; rewrite ?extend_dapp; by eexists.
Qed.

Lemma lists_append_only_witness :
  let w := sample_world false false (Completed 1 "") in
  let s := (validate_structure w (fresh w [])).2 in
  errors (self s) `prefix_of` errors (self (validate_docker_config w s).2)
  ∧ warnings (self s) `prefix_of` warnings (self (validate_docker_config w s).2)
  ∧ successes (self s) `prefix_of` successes (self (validate_docker_config w s).2).
Proof.
  intros w s.
  apply (lists_append_only w (validate_docker_config w) s
           (validate_docker_config w s).1 (validate_docker_config w s).2).
  - apply elem_of_app. left. unfold validations.
    do 4 (apply elem_of_cons; right). apply elem_of_cons. left. reflexivity.
  - apply surjective_pairing.
Defined.

(** ** What the checks return *)

(** C2, as the code has it.  The five checks that record errors return
    whether the errors list of the validator is empty once they are done,
    so an error of an earlier check makes every later one return [False];
    the Docker and the documentation check always return [True]; the build
    check returns [False] exactly when the tool ran and exited with a
    non-zero status, though it records no error. *)
Theorem check_return_values (w : World) (s : Proc) (b : bool) (s' : Proc) :
  (∀ m, m ∈ [ validate_structure w; validate_crate_files w;
              validate_examples w; validate_workspace_config w;
              validate_ci_workflow w ] →
     m s = (Ret b, s') → (b = true ↔ errors (self s') = []))
  ∧ (∀ m, m ∈ [ validate_docker_config w; validate_documentation w ] →
       m s = (Ret b, s') → b = true)
  ∧ (check_cargo_build w s = (Ret b, s') →
     errors (self s') = errors (self s)
     ∧ (b = false ↔ ∃ returncode stderr,
          cargo_check w = Completed returncode stderr ∧ returncode ≠ 0%Z)).
Proof.
  split; [|split].
  - intros m Hm Hrun. rewrite <- no_errors_true.
    repeat (apply elem_of_cons in Hm as [->|Hm]);
      [| | | | |by apply elem_of_nil in Hm].
    + rewrite validate_structure_run in Hrun. by inversion Hrun.
    + rewrite validate_crate_files_run in Hrun. by inversion Hrun.
    + rewrite validate_examples_run in Hrun. by inversion Hrun.
    + rewrite validate_workspace_config_run in Hrun.
      destruct (workspace_exn _ _); by inversion Hrun.
    + rewrite validate_ci_workflow_run in Hrun.
      destruct (ci_exn _ _); by inversion Hrun.
  - intros m Hm Hrun.
    repeat (apply elem_of_cons in Hm as [->|Hm]);
      [| |by apply elem_of_nil in Hm].
    + rewrite validate_docker_config_run in Hrun. by inversion Hrun.
    + rewrite validate_documentation_run in Hrun. by inversion Hrun.
  - rewrite check_cargo_build_run. intros Hrun. inversion Hrun as [[Hb Hs]].
    split.
    + unfold cargo_delta. cbn.
      destruct (cargo_check w) as [returncode stderr| | |str_e]; cbn;
        [destruct (returncode =? 0)%Z|..]; cbn; by rewrite app_nil_r.
    + unfold cargo_flag.
      destruct (cargo_check w) as [returncode stderr| | |str_e].
      * rewrite Z.eqb_neq. split; [by eauto|].
        by intros (? & ? & [= <- _] & ?).
      * split; [done|]. by intros (? & ? & ? & ?).
      * split; [done|]. by intros (? & ? & ? & ?).
      * split; [done|]. by intros (? & ? & ? & ?).
Qed.

Lemma check_return_values_witness :
  let w := sample_world false true (Completed 1 "") in
  let s := (validate_structure w (fresh w [])).2 in
  (false = true ↔ errors (self (validate_examples w s).2) = [])
  ∧ true = true
  ∧ (errors (self (check_cargo_build w s).2) = errors (self s)
     ∧ (false = false ↔ ∃ returncode stderr,
          cargo_check w = Completed returncode stderr ∧ returncode ≠ 0%Z)).
Proof.
  intros w s. split; [|split].
  - apply (proj1 (check_return_values w s false (validate_examples w s).2)
             (validate_examples w)).
    + do 2 (apply elem_of_cons; right). apply elem_of_cons. left. reflexivity.
    + vm_compute. reflexivity.
  - apply (proj1 (proj2 (check_return_values w s true
                           (validate_docker_config w s).2))
             (validate_docker_config w)).
    + apply elem_of_cons. left. reflexivity.
    + vm_compute. reflexivity.
  - apply (proj2 (proj2 (check_return_values w s false
                           (check_cargo_build w s).2))).
    vm_compute. reflexivity.
Defined.

(** C2 fails as stated: in a tree that lacks only [tests], the crate-files
    check, the second of the run, finds every file and appends no error, yet
    it returns [False], because the structure check before it recorded
    one. *)
Lemma later_check_flag_counts_earlier_errors :
  let w := sample_world false true (Completed 0 "") in
  let s := (validate_structure w (fresh w [])).2 in
  errors (self s) = ["✗ Missing directory: tests"]
  ∧ (validate_crate_files w s).1 = Ret false
  ∧ errors (self (validate_crate_files w s).2) = errors (self s).
Proof. vm_compute. repeat split; reflexivity. Qed.

(** ** The whole run *)

Lemma report_keeps_lists s1 :
  self (extend s1 (report_delta (self s1))) = self s1.
Proof. unfold report_delta. by rewrite extend_put. Qed.

(** C1.  When the root exists and all the checks have run, so that
    [run_all_validations] returns, [main] exits with status 1 if the errors
    list of the validator is non-empty and with status 0 if it is empty,
    whatever the warnings. *)
Theorem exit_status_iff_errors (w : World) (out : list string) (b : bool)
    (s' : Proc) :
  path_exists w (script_dir w) = true →
  run_all_validations w (fresh w out) = (Ret b, s') →
  (main w out).1.2 = Some (self s')
  ∧ (exit_status (main w out).1.1 = 1%Z ↔ errors (self s') ≠ [])
  ∧ (errors (self s') = [] → exit_status (main w out).1.1 = 0%Z).
Proof.
  intros Hroot Hrun. rewrite main_run, Hrun by done. cbn [fst snd exit_status].
  split; [done|].
  rewrite run_all_validations_run in Hrun.
  destruct (checks_spec w _).2; [discriminate|].
  injection Hrun as <- <-. rewrite report_keeps_lists.
  cbn [extend self errors fresh EggValidator_init app egg_root].
  destruct (d_errors _); cbn [truthy negb].
  - split; [split; [discriminate|done]|done].
  - split; [split; [done|done]|discriminate].
Qed.

Lemma exit_status_iff_errors_witness :
  let w := sample_world false true (Completed 0 "") in
  (main w []).1.2 = Some (self (run_all_validations w (fresh w [])).2)
  ∧ (exit_status (main w []).1.1 = 1%Z
     ↔ errors (self (run_all_validations w (fresh w [])).2) ≠ [])
  ∧ (errors (self (run_all_validations w (fresh w [])).2) = []
     → exit_status (main w []).1.1 = 0%Z).
Proof.
  intros w.
  apply (exit_status_iff_errors w [] false
           (run_all_validations w (fresh w [])).2).
  - reflexivity.
  - vm_compute. reflexivity.
Defined.

Lemma readable_no_exn w p :
  readable_if_present w p →
  (if path_exists w p then read_exn w p else None) = None.
Proof.
  unfold readable_if_present, is_text_file, read_exn.
  intros H. destruct (path_exists w p); [|done].
  destruct (H eq_refl) as [content ->]. done.
Qed.

Lemma checks_spec_completes w root :
  workspace_exn w root = None → ci_exn w root = None →
  checks_spec w root
  = (dapp (structure_delta w root)
      (dapp (crate_files_delta w root)
        (dapp (examples_delta w root)
          (dapp (workspace_delta w root)
            (dapp (docker_delta w root)
              (dapp (ci_delta w root)
                (dapp (documentation_delta w root)
                  (dapp (cargo_delta w) dnil))))))), None).
Proof.
  intros Hw Hc. unfold checks_spec, check_specs. rewrite Hw, Hc.
  reflexivity.
Qed.

Lemma main_completes w out d :
  path_exists w (script_dir w) = true →
  checks_spec w (script_dir w) = (d, None) →
  ∃ v out',
    main w out
    = (Raise (SystemExit (if truthy (errors v) then 1 else 0)), Some v, out')
    ∧ last out' = Some (verdict_line (verdict_of v))
    ∧ errors v = d_errors d
    ∧ warnings v = d_warnings d
    ∧ successes v = d_successes d.
Proof.
  intros Hroot Hspec. rewrite main_run by done.
  rewrite run_all_validations_run. cbn [fresh self egg_root EggValidator_init].
  rewrite Hspec. cbn [fst snd]. rewrite report_keeps_lists.
  eexists _, _. split; [|split].
  - f_equal. f_equal. by destruct (truthy _).
  - unfold report_delta. rewrite extend_put. cbn [put stdout].
    by rewrite !app_assoc, last_snoc.
  - by cbn.
Qed.

Lemma elem_truthy {A} (x : A) xs : x ∈ xs → truthy xs = true.
Proof. destruct xs; [by intros ?%elem_of_nil|done]. Qed.

Lemma verdict_of_failed v : truthy (errors v) = true → verdict_of v = FAILED.
Proof. unfold verdict_of. by destruct (errors v). Qed.

Lemma verdict_of_warned v :
  errors v = [] → truthy (warnings v) = true →
  verdict_of v = PASSED_WITH_WARNINGS.
Proof. unfold verdict_of. intros ->. by destruct (warnings v). Qed.

(** C5.  When the root exists, one of the required directories is missing
    and the two files the validator reads can be read if they are there,
    the run ends with the error naming that directory in the errors list,
    the verdict FAILED and exit status 1.  This holds whatever else is
    present or missing, so in particular when the directory is the only
    thing missing. *)
Theorem missing_directory_fails (w : World) (out : list string) (d : string) :
  path_exists w (script_dir w) = true →
  d ∈ required_dirs →
  path_exists w (script_dir w // d) = false →
  readable_if_present w (script_dir w // "Cargo.toml") →
  readable_if_present w (script_dir w // ".github" // "workflows" // "ci.yml") →
  ∃ v out',
    main w out = (Raise (SystemExit 1), Some v, out')
    ∧ ("✗ Missing directory: " +:+ d) ∈ errors v
    ∧ last out' = Some "❌ VALIDATION FAILED".
Proof.
  intros Hroot Hd Hmissing Hcargo Hci.
  destruct (main_completes w out _ Hroot
              (checks_spec_completes w (script_dir w)
                 (readable_no_exn _ _ Hcargo) (readable_no_exn _ _ Hci)))
    as (v & out' & Hmain & Hlast & He & _ & _).
  assert (Hin : ("✗ Missing directory: " +:+ d) ∈ errors v).
  { rewrite He. cbn [d_errors dapp]. apply elem_of_app. left.
    unfold structure_delta. cbn [d_errors dapp printed app].
    rewrite (d_errors_classified
               (λ dir_path, path_exists w (script_dir w // dir_path))).
    apply list_elem_of_fmap_2, list_elem_of_filter. by split. }
  exists v, out'. rewrite Hmain, Hlast.
  rewrite (verdict_of_failed v), (elem_truthy _ _ Hin);
    [done|by apply (elem_truthy _ _ Hin)].
Qed.

Lemma missing_directory_fails_witness :
  ∃ v out',
    main (sample_world false true (Completed 0 "")) []
    = (Raise (SystemExit 1), Some v, out')
    ∧ ("✗ Missing directory: " +:+ "tests") ∈ errors v
    ∧ last out' = Some "❌ VALIDATION FAILED".
Proof.
  apply (missing_directory_fails (sample_world false true (Completed 0 "")) []
           "tests").
  - reflexivity.
  - unfold required_dirs. do 6 (apply elem_of_cons; right).
    apply elem_of_cons. left. reflexivity.
  - reflexivity.
  - intros _. eexists. reflexivity.
  - intros _. eexists. reflexivity.
Defined.

(** ** When nothing required is missing *)

Section Present.

Variables (w : World) (root : Path).
Hypothesis Hpresent : required_present w root.

Lemma present_workspace_exn : workspace_exn w root = None.
Proof.
  destruct (present_members _ _ Hpresent) as (content & Hlookup & _).
  unfold workspace_exn, read_exn, path_exists. by rewrite Hlookup.
Qed.

Lemma present_ci_exn : ci_exn w root = None.
Proof.
  destruct (present_ci_workflow _ _ Hpresent) as (content & Hlookup).
  unfold ci_exn, read_exn, path_exists. by rewrite Hlookup.
Qed.

Lemma present_structure_errors : d_errors (structure_delta w root) = [].
Proof.
  unfold structure_delta. cbn [d_errors dapp printed app].
  apply d_errors_dconcat_nil. intros d Hd.
  by rewrite (present_dirs _ _ Hpresent d Hd).
Qed.

Lemma present_crate_files_errors : d_errors (crate_files_delta w root) = [].
Proof.
  unfold crate_files_delta. cbn [d_errors dapp printed app].
  apply d_errors_dconcat_nil. intros c Hc. unfold crate_delta.
  destruct (present_crate_files _ _ Hpresent c Hc) as [-> ->]. done.
Qed.

Lemma present_examples_errors : d_errors (examples_delta w root) = [].
Proof.
  unfold examples_delta. cbn [d_errors dapp printed app].
  apply d_errors_dconcat_nil. intros e He.
  by rewrite (present_examples _ _ Hpresent e He).
Qed.

Lemma present_workspace_errors : d_errors (workspace_delta w root) = [].
Proof.
  destruct (present_members _ _ Hpresent) as (content & Hlookup & Hmembers).
  unfold workspace_delta. rewrite Hlookup. cbn [d_errors dapp printed app].
  apply d_errors_dconcat_nil. intros m Hm. by rewrite (Hmembers m Hm).
Qed.

Lemma present_ci_errors : d_errors (ci_delta w root) = [].
Proof.
  destruct (present_ci_workflow _ _ Hpresent) as (content & Hlookup).
  unfold ci_delta. rewrite Hlookup.
  cbn [d_errors dapp printed success app].
  apply d_errors_dconcat_nil. intros job _. by destruct (Str.contains _ _).
Qed.

End Present.

Lemma docker_errors w root : d_errors (docker_delta w root) = [].
Proof. unfold docker_delta. by repeat destruct (path_exists _ _). Qed.

Lemma documentation_errors w root : d_errors (documentation_delta w root) = [].
Proof.
  unfold documentation_delta. cbn [d_errors dapp printed app].
  apply d_errors_dconcat_nil. intros doc _. by destruct (path_exists _ _).
Qed.

Lemma cargo_errors w : d_errors (cargo_delta w) = [].
Proof.
  unfold cargo_delta.
  destruct (cargo_check w) as [returncode ?| | |]; [|done..].
  by destruct (returncode =? 0)%Z.
Qed.

Lemma docker_warning w root f :
  f ∈ optional_files → path_exists w (root // f) = false →
  ("⚠ " +:+ f +:+ " missing") ∈ d_warnings (docker_delta w root).
Proof.
  unfold optional_files. intros Hf Hmissing.
  repeat (apply elem_of_cons in Hf as [->|Hf]);
    [| | |by apply elem_of_nil in Hf];
    unfold docker_delta; rewrite Hmissing;
    cbn [d_warnings dapp printed warning app];
    rewrite ?elem_of_app, ?elem_of_cons; auto.
Qed.

Lemma documentation_warning w root d :
  d ∈ docs → path_exists w (root // d) = false →
  ("⚠ Missing documentation: " +:+ d) ∈ d_warnings (documentation_delta w root).
Proof.
  intros Hd Hmissing. unfold documentation_delta.
  cbn [d_warnings dapp printed app].
  rewrite (d_warnings_classified (λ doc, path_exists w (root // doc))).
  apply list_elem_of_fmap_2, list_elem_of_filter. by split.
Qed.

(** C6.  When everything required is present, the run records no error
    and exits with status 0; each of [Dockerfile], [docker-compose.yml] and
    [.dockerignore] that is missing is a warning, and so is each missing
    documentation file; and when at least one of these files is missing the
    verdict is PASSED WITH WARNINGS. *)
Theorem missing_optional_files_pass_with_warnings (w : World)
    (out : list string) :
  required_present w (script_dir w) →
  ∃ v out',
    main w out = (Raise (SystemExit 0), Some v, out')
    ∧ errors v = []
    ∧ (∀ f, f ∈ optional_files → path_exists w (script_dir w // f) = false →
         ("⚠ " +:+ f +:+ " missing") ∈ warnings v)
    ∧ (∀ d, d ∈ docs → path_exists w (script_dir w // d) = false →
         ("⚠ Missing documentation: " +:+ d) ∈ warnings v)
    ∧ ((∃ f, f ∈ optional_files ++ docs
             ∧ path_exists w (script_dir w // f) = false) →
       last out' = Some "⚠️  VALIDATION PASSED WITH WARNINGS").
Proof.
  intros Hpresent.
  destruct (main_completes w out _ (present_root _ _ Hpresent)
              (checks_spec_completes w (script_dir w)
                 (present_workspace_exn _ _ Hpresent)
                 (present_ci_exn _ _ Hpresent)))
    as (v & out' & Hmain & Hlast & He & Hw & _).
  assert (Herrors : errors v = []).
  { rewrite He. cbn [d_errors dapp dnil].
    rewrite present_structure_errors, present_crate_files_errors,
      present_examples_errors, present_workspace_errors, docker_errors,
      present_ci_errors, documentation_errors, cargo_errors by done.
    done. }
  assert (Hdocker : ∀ f, f ∈ optional_files →
            path_exists w (script_dir w // f) = false →
            ("⚠ " +:+ f +:+ " missing") ∈ warnings v).
  { intros f Hf Hmissing. rewrite Hw. cbn [d_warnings dapp].
    rewrite !elem_of_app. do 4 right. left. by apply docker_warning. }
  assert (Hdocs : ∀ d, d ∈ docs →
            path_exists w (script_dir w // d) = false →
            ("⚠ Missing documentation: " +:+ d) ∈ warnings v).
  { intros d Hd Hmissing. rewrite Hw. cbn [d_warnings dapp].
    rewrite !elem_of_app. do 6 right. left. by apply documentation_warning. }
  exists v, out'. rewrite Hmain, Herrors. cbn [truthy].
  split; [done|]. split; [done|]. split; [done|]. split; [done|].
  intros (f & Hf & Hmissing). rewrite Hlast.
  rewrite (verdict_of_warned v Herrors); [done|].
  apply elem_of_app in Hf as [Hf|Hf].
  - exact (elem_truthy _ _ (Hdocker f Hf Hmissing)).
  - exact (elem_truthy _ _ (Hdocs f Hf Hmissing)).
Qed.

Ltac each_member H :=
  repeat (apply elem_of_cons in H as [->|H]);
  [..|by apply elem_of_nil in H].

Lemma sample_required_present dockerfile outcome :
  required_present (sample_world true dockerfile outcome) ["egg"].
Proof.
  split.
  - reflexivity.
  - intros d Hd. unfold required_dirs in Hd. each_member Hd; reflexivity.
  - intros c Hc. unfold crates in Hc. each_member Hc; split; reflexivity.
  - intros e He. unfold required_examples in He. each_member He; reflexivity.
  - eexists. split; [by destruct dockerfile|].
    intros m Hm. unfold required_members in Hm. each_member Hm; reflexivity.
  - eexists. by destruct dockerfile.
Defined.

Lemma missing_optional_files_pass_with_warnings_witness :
  ∃ v out',
    main (sample_world true false RaisesFileNotFoundError) []
    = (Raise (SystemExit 0), Some v, out')
    ∧ errors v = []
    ∧ ("⚠ Dockerfile missing") ∈ warnings v
    ∧ last out' = Some "⚠️  VALIDATION PASSED WITH WARNINGS".
Proof.
  destruct (missing_optional_files_pass_with_warnings
              (sample_world true false RaisesFileNotFoundError) []
              (sample_required_present false RaisesFileNotFoundError))
    as (v & out' & Hmain & Herrors & Hwarn & _ & Hlast).
  assert (Hf : "Dockerfile" ∈ optional_files)
    by (apply elem_of_cons; left; reflexivity).
  exists v, out'. split; [exact Hmain|]. split; [exact Herrors|]. split.
  - apply (Hwarn "Dockerfile" Hf). reflexivity.
  - apply Hlast. exists "Dockerfile". split; [|reflexivity].
    apply elem_of_app. left. exact Hf.
Defined.

(** ** Two runs *)

Lemma same_read_exn w1 w2 p1 p2 :
  same_read (lookup_path (fs w1) p1) (lookup_path (fs w2) p2) →
  path_exists w1 p1 = path_exists w2 p2 ∧ read_exn w1 p1 = read_exn w2 p2.
Proof.
  unfold path_exists, read_exn.
  destruct (lookup_path (fs w1) p1) as [[| |]|],
    (lookup_path (fs w2) p2) as [[| |]|]; cbn; by intros.
Qed.

Lemma checks_spec_same w1 w2 :
  same_observations w1 w2 →
  checks_spec w1 (script_dir w1) = checks_spec w2 (script_dir w2).
Proof.
  intros H. unfold checks_spec, check_specs.
  assert (structure_delta w1 (script_dir w1)
          = structure_delta w2 (script_dir w2)) as ->.
  { unfold structure_delta. do 2 f_equal.
    apply Forall_fmap_ext_1, Forall_forall. intros d Hd.
    by rewrite (obs_dirs _ _ H d Hd). }
  assert (crate_files_delta w1 (script_dir w1)
          = crate_files_delta w2 (script_dir w2)) as ->.
  { unfold crate_files_delta. do 2 f_equal.
    apply Forall_fmap_ext_1, Forall_forall. intros c Hc. unfold crate_delta.
    by rewrite (obs_crate_cargo _ _ H c Hc), (obs_crate_lib _ _ H c Hc). }
  assert (examples_delta w1 (script_dir w1)
          = examples_delta w2 (script_dir w2)) as ->.
  { unfold examples_delta. do 2 f_equal.
    apply Forall_fmap_ext_1, Forall_forall. intros e He.
    by rewrite (obs_examples _ _ H e He). }
  assert (workspace_delta w1 (script_dir w1)
          = workspace_delta w2 (script_dir w2)
          ∧ workspace_exn w1 (script_dir w1)
            = workspace_exn w2 (script_dir w2)) as [-> ->].
  { pose proof (obs_cargo_toml _ _ H) as Hread.
    destruct (same_read_exn _ _ _ _ Hread) as [He Hx].
    unfold workspace_delta, workspace_exn. rewrite He, Hx. split; [|done].
    destruct (lookup_path (fs w1) _) as [[| |]|],
      (lookup_path (fs w2) _) as [[| |]|]; cbn in Hread; by subst. }
  assert (docker_delta w1 (script_dir w1)
          = docker_delta w2 (script_dir w2)) as ->.
  { unfold docker_delta.
    rewrite (obs_optional _ _ H "Dockerfile"),
      (obs_optional _ _ H "docker-compose.yml"),
      (obs_optional _ _ H ".dockerignore");
      [done|unfold optional_files; rewrite !elem_of_cons; auto..]. }
  assert (ci_delta w1 (script_dir w1) = ci_delta w2 (script_dir w2)
          ∧ ci_exn w1 (script_dir w1) = ci_exn w2 (script_dir w2)) as [-> ->].
  { pose proof (obs_ci_workflow _ _ H) as Hread.
    destruct (same_read_exn _ _ _ _ Hread) as [He Hx].
    unfold ci_delta, ci_exn. rewrite He, Hx. split; [|done].
    destruct (lookup_path (fs w1) _) as [[| |]|],
      (lookup_path (fs w2) _) as [[| |]|]; cbn in Hread; by subst. }
  assert (documentation_delta w1 (script_dir w1)
          = documentation_delta w2 (script_dir w2)) as ->.
  { unfold documentation_delta. do 2 f_equal.
    apply Forall_fmap_ext_1, Forall_forall. intros d Hd.
    by rewrite (obs_docs _ _ H d Hd). }
  assert (cargo_delta w1 = cargo_delta w2) as ->.
  { unfold cargo_delta. by rewrite (obs_cargo_check _ _ H). }
  done.
Qed.

(** C9.  Two runs of [main] in which every question the program asks of
    the file system and of the build tool has the same answer end the same
    way and leave validators with the same successes, warnings and errors,
    whatever the console held before each of them: each run starts from a
    fresh validator and nothing else is read. *)
Theorem rerun_same_lists (w1 w2 : World) (out1 out2 : list string) :
  same_observations w1 w2 →
  (main w1 out1).1.1 = (main w2 out2).1.1
  ∧ result_lists <$> (main w1 out1).1.2 = result_lists <$> (main w2 out2).1.2.
Proof.
  intros H. unfold main. rewrite (obs_root _ _ H).
  destruct (path_exists w2 (script_dir w2)); cbn [negb]; [|done].
  rewrite !run_all_validations_run.
  cbn [self egg_root EggValidator_init].
  rewrite (checks_spec_same _ _ H).
  destruct (checks_spec w2 (script_dir w2)) as [d [e|]]; by cbn.
Qed.

Lemma rerun_same_lists_witness :
  (main (sample_world true true (Completed 0 "")) []).1.1
  = (main other_world ["earlier output"]).1.1
  ∧ result_lists <$> (main (sample_world true true (Completed 0 "")) []).1.2
    = result_lists <$> (main other_world ["earlier output"]).1.2.
Proof.
  apply (rerun_same_lists (sample_world true true (Completed 0 "")) other_world
           [] ["earlier output"]).
  split.
  - reflexivity.
  - intros d Hd. unfold required_dirs in Hd. each_member Hd; reflexivity.
  - intros c Hc. unfold crates in Hc. each_member Hc; reflexivity.
  - intros c Hc. unfold crates in Hc. each_member Hc; reflexivity.
  - intros e He. unfold required_examples in He. each_member He; reflexivity.
  - reflexivity.
  - intros f Hf. unfold optional_files in Hf. each_member Hf; reflexivity.
  - reflexivity.
  - intros d Hd. unfold docs in Hd. each_member Hd; reflexivity.
  - reflexivity.
Defined.

(** Run twice in a row on the same world, the second run starting with the
    console the first one left, [main] ends the same way with the same
    lists. *)
Corollary rerun_in_sequence w out :
  let first := main w out in
  let second := main w first.2 in
  first.1.1 = second.1.1
  ∧ result_lists <$> first.1.2 = result_lists <$> second.1.2.
Proof.
  intros first second. subst first second.
  unfold main. destruct (path_exists w (script_dir w)); cbn [negb]; [|done].
  rewrite !run_all_validations_run.
  cbn [self egg_root EggValidator_init].
  destruct (checks_spec w (script_dir w)) as [d [e|]]; by cbn.
Qed.

(** ** The other ways [main] ends

    [main] exits with status 1 without running any check when the root
    does not exist ([main_root_missing]), and an exception raised while a
    file is read reaches the top, which also gives status 1. *)

Lemma main_raises w out d e :
  path_exists w (script_dir w) = true →
  checks_spec w (script_dir w) = (d, Some e) →
  ∃ v out', main w out = (Raise e, Some v, out').
Proof.
  intros Hroot Hspec. rewrite main_run by done.
  rewrite run_all_validations_run. cbn [fresh self egg_root EggValidator_init].
  rewrite Hspec. cbn [fst snd]. by eexists _, _.
Qed.

Example main_unreadable_cargo_toml :
  (main unreadable_world []).1.1 = Raise IsADirectoryError
  ∧ exit_status (main unreadable_world []).1.1 = 1%Z.
Proof. vm_compute. split; reflexivity. Qed.

(** * Further properties of the checks *)

(** ** What the loops append *)

Lemma d_successes_dconcat ds :
  d_successes (dconcat ds) = concat (d_successes <$> ds).
Proof. induction ds as [|d ds IH]; [done|]. cbn. f_equal. apply IH. Qed.

Lemma d_successes_classified {A} (c : A → bool) (a : A → string)
    (no : A → Delta) xs :
  (∀ x, d_successes (no x) = []) →
  d_successes (dconcat ((λ x, if c x then success (a x) else no x) <$> xs))
  = a <$> filter (λ x, c x = true) xs.
Proof.
  intros Hno. rewrite d_successes_dconcat.
  induction xs as [|x xs IH]; [done|].
  rewrite filter_cons. cbn [fmap list_fmap concat]. rewrite IH.
  destruct (c x); cbn; [done|]. by rewrite Hno.
Qed.

Lemma d_warnings_dconcat_nil {A} (f : A → Delta) xs :
  (∀ x, x ∈ xs → d_warnings (f x) = []) →
  d_warnings (dconcat (f <$> xs)) = [].
Proof.
  intros H. rewrite d_warnings_dconcat.
  induction xs as [|x xs IH]; [done|]. cbn.
  rewrite H by (rewrite elem_of_cons; by left). cbn. apply IH.
  intros y Hy. apply H. rewrite elem_of_cons; by right.
Qed.

(** X1.  The structure check returns and appends, in the order of the
    required directories, one error for each directory that is missing and
    one success for each that exists; it appends no warning. *)
Theorem validate_structure_entries (w : World) (s : Proc) :
  ∃ b s', validate_structure w s = (Ret b, s')
    ∧ errors (self s')
      = errors (self s)
        ++ ((λ d, "✗ Missing directory: " +:+ d)
            <$> filter (λ d, path_exists w (egg_root (self s) // d) = false)
                  required_dirs)
    ∧ successes (self s')
      = successes (self s)
        ++ ((λ d, "✓ Directory exists: " +:+ d)
            <$> filter (λ d, path_exists w (egg_root (self s) // d) = true)
                  required_dirs)
    ∧ warnings (self s') = warnings (self s).
Proof.
  eexists _, _. split; [apply validate_structure_run|].
  unfold structure_delta.
  cbn [extend self errors successes warnings dapp d_errors d_successes
         d_warnings printed app].
  rewrite (d_errors_classified
             (λ d, path_exists w (egg_root (self s) // d))).
  rewrite (d_successes_classified
             (λ d, path_exists w (egg_root (self s) // d))) by done.
  rewrite d_warnings_dconcat_nil; [by rewrite app_nil_r|].
  intros d _. by destruct (path_exists _ _).
Qed.

(** X2.  The examples check returns and appends, in the order of the
    required examples, one error for each example file that is missing
    under [examples] and one success for each that exists; it appends no
    warning. *)
Theorem validate_examples_entries (w : World) (s : Proc) :
  ∃ b s', validate_examples w s = (Ret b, s')
    ∧ errors (self s')
      = errors (self s)
        ++ ((λ e, "✗ Missing example: " +:+ e)
            <$> filter (λ e, path_exists w
                               (egg_root (self s) // "examples" // e) = false)
                  required_examples)
    ∧ successes (self s')
      = successes (self s)
        ++ ((λ e, "✓ Example exists: " +:+ e)
            <$> filter (λ e, path_exists w
                               (egg_root (self s) // "examples" // e) = true)
                  required_examples)
    ∧ warnings (self s') = warnings (self s).
Proof.
  eexists _, _. split; [apply validate_examples_run|].
  unfold examples_delta.
  cbn [extend self errors successes warnings dapp d_errors d_successes
         d_warnings printed app].
  rewrite (d_errors_classified
             (λ e, path_exists w (egg_root (self s) // "examples" // e))).
  rewrite (d_successes_classified
             (λ e, path_exists w (egg_root (self s) // "examples" // e)))
    by done.
  rewrite d_warnings_dconcat_nil; [by rewrite app_nil_r|].
  intros e _. by destruct (path_exists _ _).
Qed.

(** X3.  The documentation check returns [True] and appends, in the order
    of the documentation files, one warning for each file that is missing
    and one success for each that exists; it appends no error. *)
Theorem validate_documentation_entries (w : World) (s : Proc) :
  ∃ s', validate_documentation w s = (Ret true, s')
    ∧ warnings (self s')
      = warnings (self s)
        ++ ((λ d, "⚠ Missing documentation: " +:+ d)
            <$> filter (λ d, path_exists w (egg_root (self s) // d) = false)
                  docs)
    ∧ successes (self s')
      = successes (self s)
        ++ ((λ d, "✓ Documentation: " +:+ d)
            <$> filter (λ d, path_exists w (egg_root (self s) // d) = true)
                  docs)
    ∧ errors (self s') = errors (self s).
Proof.
  eexists. split; [apply validate_documentation_run|].
  unfold documentation_delta.
  cbn [extend self errors successes warnings dapp d_errors d_successes
         d_warnings printed app].
  rewrite (d_warnings_classified
             (λ d, path_exists w (egg_root (self s) // d))).
  rewrite (d_successes_classified
             (λ d, path_exists w (egg_root (self s) // d))) by done.
  rewrite d_errors_dconcat_nil; [by rewrite app_nil_r|].
  intros d _. by destruct (path_exists _ _).
Qed.

(** ** Counting entries *)

Lemma entries_extend s d :
  entries (self (extend s d)) = entries (self s) + dsize d.
Proof. unfold entries, dsize. cbn. rewrite !length_app. lia. Qed.

Lemma dsize_dapp a b : dsize (dapp a b) = dsize a + dsize b.
Proof. unfold dsize. cbn. rewrite !length_app. lia. Qed.

Lemma dsize_dconcat {A} (f : A → Delta) k xs :
  (∀ x, x ∈ xs → dsize (f x) = k) →
  dsize (dconcat (f <$> xs)) = k * length xs.
Proof.
  intros H. induction xs as [|x xs IH]; [cbn; lia|].
  cbn [fmap list_fmap dconcat foldr length].
  change (foldr dapp dnil (f <$> xs)) with (dconcat (f <$> xs)).
  rewrite dsize_dapp, H, IH.
  - lia.
  - intros y Hy. apply H. rewrite elem_of_cons. by right.
  - rewrite elem_of_cons. by left.
Qed.

Lemma elem_of_concat_fmap {A B} (f : A → list B) xs y :
  y ∈ concat (f <$> xs) ↔ ∃ x, x ∈ xs ∧ y ∈ f x.
Proof.
  induction xs as [|x xs IH]; cbn.
  - split; [by intros ?%elem_of_nil|]. by intros (? & ?%elem_of_nil & _).
  - rewrite elem_of_app, IH. split.
    + intros [H|(x' & Hx' & H)].
      * exists x. split; [|done]. rewrite elem_of_cons. by left.
      * exists x'. split; [|done]. rewrite elem_of_cons. by right.
    + intros (x' & [->|Hx']%elem_of_cons & H); [by left|].
      right. by exists x'.
Qed.

(** X4.  The crate-files check returns and appends exactly two entries for
    each crate, eight in all, none of them a warning.  An error is appended
    for exactly the files that are missing: [Cargo.toml] of a crate, or its
    [src/lib.rs]. *)
Theorem validate_crate_files_entries (w : World) (s : Proc) :
  ∃ b s' appended,
    validate_crate_files w s = (Ret b, s')
    ∧ errors (self s') = errors (self s) ++ appended
    ∧ (∀ msg, msg ∈ appended ↔
         ∃ crate, crate ∈ crates
           ∧ ((msg = "✗ " +:+ crate +:+ "/Cargo.toml missing"
               ∧ path_exists w (egg_root (self s) // "crates" // crate
                                // "Cargo.toml") = false)
              ∨ (msg = "✗ " +:+ crate +:+ "/src/lib.rs missing"
                 ∧ path_exists w (egg_root (self s) // "crates" // crate
                                  // "src" // "lib.rs") = false)))
    ∧ warnings (self s') = warnings (self s)
    ∧ entries (self s') = entries (self s) + 8.
Proof.
  eexists _, _, _. split; [apply validate_crate_files_run|].
  split; [reflexivity|]. split; [|split].
  - intros msg. unfold crate_files_delta. cbn [d_errors dapp printed app].
    rewrite d_errors_dconcat, <- list_fmap_compose, elem_of_concat_fmap.
    split; intros (crate & Hcrate & H); exists crate; (split; [done|]).
    + unfold crate_delta in H. cbn in H.
      destruct (path_exists _ _), (path_exists _ _); cbn in H;
        repeat (apply elem_of_cons in H as [->|H]);
        try (by apply elem_of_nil in H); auto.
    + unfold crate_delta. cbn.
      destruct H as [[-> ->]|[-> ->]]; destruct (path_exists _ _); cbn;
        rewrite ?elem_of_cons; auto.
  - unfold crate_files_delta. cbn [extend self warnings dapp d_warnings printed app].
    rewrite d_warnings_dconcat_nil; [by rewrite app_nil_r|].
    intros crate _. unfold crate_delta.
    by destruct (path_exists _ _), (path_exists _ _).
  - rewrite entries_extend. f_equal. unfold crate_files_delta.
    rewrite dsize_dapp, (dsize_dconcat _ 2); [done|].
    intros crate _. unfold crate_delta.
    by destruct (path_exists _ _), (path_exists _ _).
Qed.

(** ** Reading the two files *)

Lemma contains_false_iff needle hay :
  Str.contains needle hay = false ↔ ¬ substring needle hay.
Proof.
  unfold substring. rewrite <- contains_true_iff.
  by destruct (Str.contains needle hay).
Qed.

(** X5.  When the root [Cargo.toml] holds text, the workspace check returns
    and appends no warning; the error naming a required member is appended
    exactly when the member does not occur in the text, and the success
    naming it exactly when it does. *)
Theorem validate_workspace_config_members (w : World) (s : Proc)
    (content : string) :
  lookup_path (fs w) (egg_root (self s) // "Cargo.toml")
  = Some (TextFile content) →
  ∃ b s' appended found,
    validate_workspace_config w s = (Ret b, s')
    ∧ errors (self s') = errors (self s) ++ appended
    ∧ successes (self s') = successes (self s) ++ found
    ∧ warnings (self s') = warnings (self s)
    ∧ ∀ member, member ∈ required_members →
        (("✗ Missing workspace member: " +:+ member) ∈ appended
         ↔ ¬ substring member content)
        ∧ (("✓ Workspace member: " +:+ member) ∈ found
           ↔ substring member content).
Proof.
  intros Hlookup. eexists _, _, _, _.
  rewrite validate_workspace_config_run.
  unfold workspace_exn, workspace_delta, read_exn, path_exists.
  rewrite Hlookup. split; [reflexivity|].
  unfold members_delta.
  cbn [extend self errors successes warnings dapp d_errors d_successes
         d_warnings printed app].
  split; [reflexivity|]. split; [reflexivity|]. split.
  { rewrite d_warnings_dconcat_nil; [by rewrite app_nil_r|].
    intros m _. by destruct (Str.contains _ _). }
  intros member Hmember.
  rewrite (d_errors_classified (λ m, Str.contains m content)).
  rewrite (d_successes_classified (λ m, Str.contains m content)) by done.
  rewrite !list_elem_of_fmap. split.
  - rewrite <- contains_false_iff. split.
    + intros (m & Heq & Hm). apply (inj (String.app _)) in Heq as ->.
      by apply list_elem_of_filter in Hm as [? _].
    + intros H. exists member. split; [done|]. by apply list_elem_of_filter.
  - unfold substring. rewrite <- contains_true_iff. split.
    + intros (m & Heq & Hm). apply (inj (String.app _)) in Heq as ->.
      by apply list_elem_of_filter in Hm as [? _].
    + intros H. exists member. split; [done|]. by apply list_elem_of_filter.
Qed.

Lemma validate_workspace_config_members_witness :
  ∃ b s' appended found,
    validate_workspace_config
      (sample_world true true RaisesTimeoutExpired)
      (fresh (sample_world true true RaisesTimeoutExpired) [])
    = (Ret b, s')
    ∧ errors (self s') = [] ++ appended
    ∧ successes (self s') = [] ++ found
    ∧ warnings (self s') = []
    ∧ ∀ member, member ∈ required_members →
        (("✗ Missing workspace member: " +:+ member) ∈ appended
         ↔ ¬ substring member
               "members = [crates/limit-core, crates/limit-storage, crates/limit-orchestration, crates/limit-agents, services/api]")
        ∧ (("✓ Workspace member: " +:+ member) ∈ found
           ↔ substring member
               "members = [crates/limit-core, crates/limit-storage, crates/limit-orchestration, crates/limit-agents, services/api]").
Proof.
  apply (validate_workspace_config_members
           (sample_world true true RaisesTimeoutExpired)
           (fresh (sample_world true true RaisesTimeoutExpired) [])).
  reflexivity.
Defined.

(** X6.  When the CI workflow file exists but cannot be read as text, the
    CI check raises the exception of the read after it has appended the
    success [✓ CI workflow exists]; no error and no warning is appended, and
    no job is looked for. *)
Theorem validate_ci_workflow_unreadable (w : World) (s : Proc) :
  let ci_workflow := egg_root (self s) // ".github" // "workflows" // "ci.yml" in
  path_exists w ci_workflow = true →
  ¬ is_text_file w ci_workflow →
  ∃ e s', validate_ci_workflow w s = (Raise e, s')
    ∧ read_exn w ci_workflow = Some e
    ∧ successes (self s') = successes (self s) ++ ["✓ CI workflow exists"]
    ∧ errors (self s') = errors (self s)
    ∧ warnings (self s') = warnings (self s).
Proof.
  intros ci_workflow Hexists Htext. subst ci_workflow.
  rewrite validate_ci_workflow_run.
  unfold ci_exn, ci_delta. rewrite Hexists.
  unfold is_text_file in Htext. unfold path_exists in Hexists.
  unfold read_exn.
  destruct (lookup_path _ _) as [[| |]|]; [|by destruct Htext; eauto| |done];
    eexists _, _; (split; [reflexivity|]); (split; [reflexivity|]);
    cbn; by rewrite !app_nil_r.
Qed.

Lemma validate_ci_workflow_unreadable_witness :
  ∃ e s',
    validate_ci_workflow unreadable_ci_world (fresh unreadable_ci_world [])
    = (Raise e, s')
    ∧ read_exn unreadable_ci_world
        ([] // ".github" // "workflows" // "ci.yml") = Some e
    ∧ successes (self s') = [] ++ ["✓ CI workflow exists"]
    ∧ errors (self s') = []
    ∧ warnings (self s') = [].
Proof.
  apply (validate_ci_workflow_unreadable unreadable_ci_world
           (fresh unreadable_ci_world [])).
  - reflexivity.
  - intros [content H]. discriminate H.
Defined.

(** ** Where the messages of a check go *)

Lemma d_stdout_dconcat_nil {A} (f : A → Delta) xs :
  (∀ x, d_stdout (f x) = []) → d_stdout (dconcat (f <$> xs)) = [].
Proof.
  intros H. induction xs as [|x xs IH]; [done|]. cbn.
  rewrite H. apply IH.
Qed.

Lemma structure_warnings w root : d_warnings (structure_delta w root) = [].
Proof.
  unfold structure_delta. cbn [d_warnings dapp printed app].
  apply d_warnings_dconcat_nil. intros d _. by destruct (path_exists _ _).
Qed.

Lemma crate_files_warnings w root : d_warnings (crate_files_delta w root) = [].
Proof.
  unfold crate_files_delta. cbn [d_warnings dapp printed app].
  apply d_warnings_dconcat_nil. intros c _. unfold crate_delta.
  by destruct (path_exists _ _), (path_exists _ _).
Qed.

Lemma examples_warnings w root : d_warnings (examples_delta w root) = [].
Proof.
  unfold examples_delta. cbn [d_warnings dapp printed app].
  apply d_warnings_dconcat_nil. intros e _. by destruct (path_exists _ _).
Qed.

Lemma workspace_warnings w root : d_warnings (workspace_delta w root) = [].
Proof.
  unfold workspace_delta. cbn [d_warnings dapp printed app].
  destruct (lookup_path _ _) as [[| |]|]; try done.
  apply d_warnings_dconcat_nil. intros m _. by destruct (Str.contains _ _).
Qed.

Lemma structure_stdout w root :
  d_stdout (structure_delta w root) = ["🔍 Validating egg folder structure..."].
Proof.
  unfold structure_delta. cbn [d_stdout dapp printed app].
  rewrite d_stdout_dconcat_nil; [done|].
  intros d. by destruct (path_exists _ _).
Qed.

Lemma crate_files_stdout w root :
  d_stdout (crate_files_delta w root)
  = [Str.nl +:+ "🔍 Validating crate files..."].
Proof.
  unfold crate_files_delta. cbn [d_stdout dapp printed app].
  rewrite d_stdout_dconcat_nil; [done|].
  intros c. unfold crate_delta.
  by destruct (path_exists _ _), (path_exists _ _).
Qed.

Lemma examples_stdout w root :
  d_stdout (examples_delta w root) = [Str.nl +:+ "🔍 Validating examples..."].
Proof.
  unfold examples_delta. cbn [d_stdout dapp printed app].
  rewrite d_stdout_dconcat_nil; [done|].
  intros e. by destruct (path_exists _ _).
Qed.

(** X7.  When the root [Cargo.toml] exists but cannot be read as text, the
    run stops in the workspace check: [main] ends with the exception of the
    read, so with exit status 1; the checks after it are not run, so the
    validator holds no warning; and no report is printed, the last line on
    the console being the heading of the workspace check. *)
Theorem main_aborts_on_unreadable_cargo_toml (w : World) (out : list string) :
  path_exists w (script_dir w) = true →
  path_exists w (script_dir w // "Cargo.toml") = true →
  ¬ is_text_file w (script_dir w // "Cargo.toml") →
  ∃ e v out',
    main w out = (Raise e, Some v, out')
    ∧ read_exn w (script_dir w // "Cargo.toml") = Some e
    ∧ exit_status (Raise e) = 1%Z
    ∧ warnings v = []
    ∧ last out' = Some (Str.nl +:+ "🔍 Validating workspace configuration...").
Proof.
  intros Hroot Hexists Htext.
  assert (∃ e, read_exn w (script_dir w // "Cargo.toml") = Some e
               ∧ exit_status (Raise e) = 1%Z
               ∧ d_stdout (workspace_delta w (script_dir w))
                 = [Str.nl +:+ "🔍 Validating workspace configuration..."])
    as (e & He & Hstatus & Hout).
  { unfold read_exn, workspace_delta. unfold is_text_file in Htext.
    unfold path_exists in Hexists.
    destruct (lookup_path _ _) as [[| |]|];
      [by eexists|by destruct Htext; eauto|by eexists|done]. }
  exists e. rewrite main_run by done. rewrite run_all_validations_run.
  cbn [fresh self egg_root EggValidator_init].
  unfold checks_spec, check_specs, workspace_exn. rewrite Hexists, He.
  cbn [seq_specs fst snd]. eexists _, _. split; [reflexivity|].
  split; [done|]. split; [done|]. split.
  - cbn [extend self warnings dapp d_warnings printed app].
    by rewrite structure_warnings, crate_files_warnings, examples_warnings,
      workspace_warnings.
  - cbn [extend stdout dapp d_stdout printed].
    rewrite structure_stdout, crate_files_stdout, examples_stdout, Hout.
    by rewrite !app_assoc, last_snoc.
Qed.

Lemma main_aborts_on_unreadable_cargo_toml_witness :
  ∃ e v out',
    main locked_cargo_world [] = (Raise e, Some v, out')
    ∧ read_exn locked_cargo_world (["egg"] // "Cargo.toml") = Some e
    ∧ exit_status (Raise e) = 1%Z
    ∧ warnings v = []
    ∧ last out' = Some (Str.nl +:+ "🔍 Validating workspace configuration...").
Proof.
  apply (main_aborts_on_unreadable_cargo_toml locked_cargo_world []).
  - reflexivity.
  - reflexivity.
  - intros [content H]. discriminate H.
Defined.

(** ** The checks that only warn *)

(** X8.  The Docker check always returns [True] and appends exactly three
    entries, none of them an error: for each of the three files the success
    naming it when it exists, and the warning naming it when it does
    not. *)
Theorem validate_docker_config_entries (w : World) (s : Proc) :
  ∃ s', validate_docker_config w s = (Ret true, s')
    ∧ errors (self s') = errors (self s)
    ∧ entries (self s') = entries (self s) + 3
    ∧ ∀ f, f ∈ optional_files →
        if path_exists w (egg_root (self s) // f)
        then ("✓ " +:+ f +:+ " exists") ∈ successes (self s')
        else ("⚠ " +:+ f +:+ " missing") ∈ warnings (self s').
Proof.
  eexists. split; [apply validate_docker_config_run|].
  split; [|split].
  - cbn [extend self errors]. by rewrite docker_errors, app_nil_r.
  - rewrite entries_extend. f_equal. unfold docker_delta.
    by repeat destruct (path_exists _ _).
  - intros f Hf. unfold optional_files in Hf.
    repeat (apply elem_of_cons in Hf as [->|Hf]);
      [| | |by apply elem_of_nil in Hf];
      unfold docker_delta;
      cbn [extend self successes warnings dapp d_successes d_warnings
             printed app];
      repeat destruct (path_exists _ _);
      cbn; rewrite !elem_of_app, !elem_of_cons; auto 6.
Qed.

(** X9.  The build check never raises: whatever the tool does, the check
    returns having appended exactly one entry and no error.  The entry is
    the success [✓ Cargo check passed] exactly when the tool completed with
    return code 0; in every other case the successes stay as they are, the
    entry being a warning. *)
Theorem check_cargo_build_one_entry (w : World) (s : Proc) :
  ∃ b s', check_cargo_build w s = (Ret b, s')
    ∧ errors (self s') = errors (self s)
    ∧ entries (self s') = entries (self s) + 1
    ∧ (successes (self s') = successes (self s) ++ ["✓ Cargo check passed"]
       ↔ ∃ stderr, cargo_check w = Completed 0 stderr)
    ∧ (successes (self s') = successes (self s)
       ↔ ¬ ∃ stderr, cargo_check w = Completed 0 stderr).
Proof.
  eexists _, _. split; [apply check_cargo_build_run|].
  split; [|split].
  - cbn [extend self errors]. by rewrite cargo_errors, app_nil_r.
  - rewrite entries_extend. f_equal. unfold cargo_delta.
    destruct (cargo_check w) as [returncode ?| | |]; [|done..].
    by destruct (returncode =? 0)%Z.
  - unfold cargo_delta.
    cbn [extend self successes dapp d_successes printed app].
    destruct (cargo_check w) as [returncode stderr| | |str_e];
      [destruct (Z.eqb_spec returncode 0) as [->|Hne]|..]; cbn.
    + split; [split; [by eauto|done]|].
      split; [|by intros []; eauto].
      intros H. apply (f_equal length) in H. rewrite length_app in H.
      cbn in H. lia.
    + rewrite app_nil_r. split; [split|split; [|done]].
      * intros H. apply (f_equal length) in H. rewrite length_app in H.
        cbn in H. lia.
      * intros [? [= ? _]]. done.
      * intros _ [? [= ? _]]. done.
    + rewrite app_nil_r. split; [split|split; [|done]].
      * intros H. apply (f_equal length) in H. rewrite length_app in H.
        cbn in H. lia.
      * by intros [? ?].
      * by intros _ [? ?].
    + rewrite app_nil_r. split; [split|split; [|done]].
      * intros H. apply (f_equal length) in H. rewrite length_app in H.
        cbn in H. lia.
      * by intros [? ?].
      * by intros _ [? ?].
    + rewrite app_nil_r. split; [split|split; [|done]].
      * intros H. apply (f_equal length) in H. rewrite length_app in H.
        cbn in H. lia.
      * by intros [? ?].
      * by intros _ [? ?].
Qed.

(** ** The text of a failed build *)

Lemma slice_to_prefix n s : ∃ rest, s = Str.slice_to n s +:+ rest.
Proof.
  revert n. induction s as [|c s IH]; intros n; [by exists ""|].
  cbn [Str.slice_to]. destruct (Str.is_continuation c).
  - destruct (IH n) as [rest Hrest]. exists rest.
    change (String c (Str.slice_to n s) +:+ rest)
      with (String c (Str.slice_to n s +:+ rest)).
    by rewrite <- Hrest.
  - destruct n as [|n]; [by eexists|].
    destruct (IH n) as [rest Hrest]. exists rest.
    change (String c (Str.slice_to n s) +:+ rest)
      with (String c (Str.slice_to n s +:+ rest)).
    by rewrite <- Hrest.
Qed.

Lemma slice_to_code_points n s : (code_points (Str.slice_to n s) ≤ n)%nat.
Proof.
  revert n. induction s as [|c s IH]; intros n; [cbn; lia|].
  cbn [Str.slice_to]. destruct (Str.is_continuation c) eqn:Hc.
  - cbn [code_points]. rewrite Hc. apply IH.
  - destruct n as [|n]; [cbn; lia|].
    cbn [code_points]. rewrite Hc. specialize (IH n). lia.
Qed.

Lemma slice_to_short n s : (code_points s ≤ n)%nat → Str.slice_to n s = s.
Proof.
  revert n. induction s as [|c s IH]; intros n; [done|].
  cbn [Str.slice_to code_points]. destruct (Str.is_continuation c).
  - intros H. by rewrite IH.
  - destruct n as [|n]; [lia|]. intros H. rewrite IH; [done|lia].
Qed.

(** X10.  When the tool completes with a non-zero return code, the build
    check returns [False] and the warning it appends shows a beginning of
    the tool's error output of at most 200 code points: all of the output
    when it is that short. *)
Theorem check_cargo_build_truncates (w : World) (s : Proc) (returncode : Z)
    (stderr : string) :
  cargo_check w = Completed returncode stderr →
  returncode ≠ 0%Z →
  ∃ s' shown,
    check_cargo_build w s = (Ret false, s')
    ∧ warnings (self s')
      = warnings (self s) ++ ["⚠ Cargo check failed: " +:+ shown]
    ∧ (∃ rest, stderr = shown +:+ rest)
    ∧ (code_points shown ≤ 200)%nat
    ∧ ((code_points stderr ≤ 200)%nat → shown = stderr).
Proof.
  intros Hcargo Hne. exists (extend s (cargo_delta w)), (Str.slice_to 200 stderr).
  rewrite check_cargo_build_run. unfold cargo_flag, cargo_delta.
  rewrite Hcargo. apply Z.eqb_neq in Hne. rewrite Hne.
  split; [done|]. split; [done|]. split; [apply slice_to_prefix|].
  split; [apply slice_to_code_points|apply slice_to_short].
Qed.

Lemma check_cargo_build_truncates_witness :
  ∃ s' shown,
    check_cargo_build (sample_world true true (Completed 101 "erreur: clé"))
      (fresh (sample_world true true (Completed 101 "erreur: clé")) [])
    = (Ret false, s')
    ∧ warnings (self s') = [] ++ ["⚠ Cargo check failed: " +:+ shown]
    ∧ (∃ rest, "erreur: clé" = shown +:+ rest)
    ∧ (code_points shown ≤ 200)%nat
    ∧ ((code_points "erreur: clé" ≤ 200)%nat → shown = "erreur: clé").
Proof.
  apply (check_cargo_build_truncates
           (sample_world true true (Completed 101 "erreur: clé"))
           (fresh (sample_world true true (Completed 101 "erreur: clé")) [])
           101 "erreur: clé").
  - reflexivity.
  - discriminate.
Defined.

(** ** What the report shows *)

(** X11.  [print_report] shows every warning and every error, each on a
    line of its own after two spaces, but only the first ten successes,
    followed by one line that counts the others when there are more.  A
    section is left out when its list is empty; the three lines of the
    heading, the rule and the verdict are always printed. *)
Theorem print_report_lines (s : Proc) :
  ∃ b s' lines,
    print_report s = (Ret b, s')
    ∧ stdout s' = stdout s ++ lines
    ∧ length lines
      = (5
         + (if truthy (successes (self s))
            then 1 + length (successes (self s)) `min` 10
                 + (if 10 <? length (successes (self s)) then 1 else 0)
            else 0)
         + (if truthy (warnings (self s))
            then 1 + length (warnings (self s)) else 0)
         + (if truthy (errors (self s))
            then 1 + length (errors (self s)) else 0))%nat
    ∧ (∀ x, x ∈ take 10 (successes (self s)) → ("  " +:+ x) ∈ lines)
    ∧ ((10 < length (successes (self s)))%nat →
       ("  ... and " +:+ Str.of_nat (length (successes (self s)) - 10)
        +:+ " more") ∈ lines)
    ∧ (∀ x, x ∈ warnings (self s) → ("  " +:+ x) ∈ lines)
    ∧ (∀ x, x ∈ errors (self s) → ("  " +:+ x) ∈ lines).
Proof.
  eexists _, _, _. split; [apply print_report_run|].
  unfold report_delta. rewrite extend_put. split; [reflexivity|].
  unfold report_body. split; [|split; [|split; [|split]]].
  - rewrite !length_app.
    destruct (truthy (successes (self s))), (truthy (warnings (self s))),
      (truthy (errors (self s))), (10 <? length (successes (self s)))%nat;
      cbn [length]; rewrite ?length_app, ?length_fmap, ?length_take;
      cbn [length]; lia.
  - intros x Hx. destruct (successes (self s)) as [|x0 xs];
      [by apply elem_of_nil in Hx|]. cbn [truthy].
    apply elem_of_app. left. apply elem_of_app. right. apply elem_of_app. left.
    apply elem_of_cons. right. apply elem_of_app. left.
    by apply list_elem_of_fmap_2.
  - intros Hlen. destruct (successes (self s)) as [|x xs] eqn:Hs;
      [cbn in Hlen; lia|]. cbn [truthy].
    apply Nat.ltb_lt in Hlen. rewrite Hlen.
    apply elem_of_app. left. apply elem_of_app. right. apply elem_of_app. left.
    apply elem_of_cons. right. apply elem_of_app. right.
    apply elem_of_cons. by left.
  - intros x Hx. rewrite (elem_truthy x (warnings (self s))) by done.
    apply elem_of_app. left. do 2 (apply elem_of_app; right).
    apply elem_of_app. left. apply elem_of_cons. right.
    by apply list_elem_of_fmap_2.
  - intros x Hx. rewrite (elem_truthy x (errors (self s))) by done.
    apply elem_of_app. left. do 3 (apply elem_of_app; right).
    apply elem_of_app. left. apply elem_of_cons. right.
    by apply list_elem_of_fmap_2.
Qed.

(** ** What a check depends on *)

(** X12.  What a check appends does not depend on what the lists hold: run
    on two validators with the same root, a check appends the same
    successes, the same warnings and the same errors to both, and raises in
    the one run exactly when it raises in the other. *)
Theorem checks_ignore_earlier_entries (w : World) (m : M bool)
    (s1 s2 : Proc) (r1 r2 : result bool) (s1' s2' : Proc) :
  m ∈ validations w →
  egg_root (self s1) = egg_root (self s2) →
  m s1 = (r1, s1') →
  m s2 = (r2, s2') →
  (∃ found warned failed,
     successes (self s1') = successes (self s1) ++ found
     ∧ successes (self s2') = successes (self s2) ++ found
     ∧ warnings (self s1') = warnings (self s1) ++ warned
     ∧ warnings (self s2') = warnings (self s2) ++ warned
     ∧ errors (self s1') = errors (self s1) ++ failed
     ∧ errors (self s2') = errors (self s2) ++ failed)
  ∧ (∀ e, r1 = Raise e ↔ r2 = Raise e).
Proof.
  intros Hm Hroot Hrun1 Hrun2.
  apply list_elem_of_lookup in Hm as [i Hi].
  destruct (Forall2_lookup_l _ _ _ _ _
              (validations_specs w (egg_root (self s1))) Hi)
    as ([d e] & _ & Hspec).
  destruct (Hspec s1 eq_refl) as [b1 Hb1].
  destruct (Hspec s2 (eq_sym Hroot)) as [b2 Hb2].
  rewrite Hb1 in Hrun1. rewrite Hb2 in Hrun2.
  injection Hrun1 as <- <-. injection Hrun2 as <- <-. cbn [fst snd].
  split; [by exists (d_successes d), (d_warnings d), (d_errors d)|].
  intros e'. by destruct e.
Qed.

Lemma checks_ignore_earlier_entries_witness :
  let w := sample_world false false (Completed 1 "") in
  let s1 := fresh w [] in
  let s2 := (validate_structure w (fresh w [])).2 in
  (∃ found warned failed,
     successes (self (validate_docker_config w s1).2)
     = successes (self s1) ++ found
     ∧ successes (self (validate_docker_config w s2).2)
       = successes (self s2) ++ found
     ∧ warnings (self (validate_docker_config w s1).2)
       = warnings (self s1) ++ warned
     ∧ warnings (self (validate_docker_config w s2).2)
       = warnings (self s2) ++ warned
     ∧ errors (self (validate_docker_config w s1).2)
       = errors (self s1) ++ failed
     ∧ errors (self (validate_docker_config w s2).2)
       = errors (self s2) ++ failed)
  ∧ (∀ e, (validate_docker_config w s1).1 = Raise e
          ↔ (validate_docker_config w s2).1 = Raise e).
Proof.
  intros w s1 s2.
  apply (checks_ignore_earlier_entries w (validate_docker_config w) s1 s2
           (validate_docker_config w s1).1 (validate_docker_config w s2).1
           (validate_docker_config w s1).2 (validate_docker_config w s2).2).
  - unfold validations.
    do 4 (apply elem_of_cons; right). apply elem_of_cons. left. reflexivity.
  - reflexivity.
  - apply surjective_pairing.
  - apply surjective_pairing.
Defined.

Lemma extend_root_stdout s d :
  egg_root (self (extend s d)) = egg_root (self s)
  ∧ stdout s `prefix_of` stdout (extend s d).
Proof. split; [done|]. cbn. by apply prefix_app_r. Qed.

(** X13.  No check, nor the report, nor the whole run changes the root of
    the validator or takes back what was printed: the root after the call
    is the root before it, and the console before it is a prefix of the
    console after it, also when the call raises. *)
Theorem root_kept_console_grows (w : World) (m : M bool) (s : Proc)
    (r : result bool) (s' : Proc) :
  m ∈ validations w ++ [print_report; run_all_validations w] →
  m s = (r, s') →
  egg_root (self s') = egg_root (self s)
  ∧ stdout s `prefix_of` stdout s'.
Proof.
  intros Hm Hrun.
  assert (∃ d, s' = extend s d) as [d ->]; [|apply extend_root_stdout].
  apply elem_of_app in Hm as [Hm|Hm].
  - apply list_elem_of_lookup in Hm as [i Hi].
    destruct (Forall2_lookup_l _ _ _ _ _
                (validations_specs w (egg_root (self s))) Hi)
      as ([d e] & _ & Hspec).
    destruct (Hspec s eq_refl) as [b Hb]. rewrite Hb in Hrun.
    exists d. by injection Hrun.
  - apply elem_of_cons in Hm as [->|Hm].
    + rewrite print_report_run in Hrun. eexists. by injection Hrun.
    + apply list_elem_of_singleton in Hm as ->.
      rewrite run_all_validations_run in Hrun.
      destruct (checks_spec w (egg_root (self s))).2;
        injection Hrun as _ <-; rewrite ?extend_dapp; by eexists.
Qed.

Lemma root_kept_console_grows_witness :
  let w := sample_world true false (Completed 0 "") in
  egg_root (self (run_all_validations w (fresh w ["$ python validate"])).2)
  = egg_root (self (fresh w ["$ python validate"]))
  ∧ stdout (fresh w ["$ python validate"])
    `prefix_of` stdout (run_all_validations w (fresh w ["$ python validate"])).2.
Proof.
  intros w.
  apply (root_kept_console_grows w (run_all_validations w)
           (fresh w ["$ python validate"])
           (run_all_validations w (fresh w ["$ python validate"])).1
           (run_all_validations w (fresh w ["$ python validate"])).2).
  - apply elem_of_app. right. apply elem_of_cons. right.
    apply elem_of_cons. left. reflexivity.
  - apply surjective_pairing.
Defined.

(** ** The exit status *)

Lemma read_exn_status w p e :
  read_exn w p = Some e → exit_status (Raise e) = 1%Z.
Proof.
  unfold read_exn. destruct (lookup_path _ _) as [[| |]|]; by intros [= <-].
Qed.

Lemma checks_spec_exn w root d e :
  checks_spec w root = (d, Some e) → exit_status (Raise e) = 1%Z.
Proof.
  unfold checks_spec, check_specs.
  destruct (workspace_exn w root) as [e1|] eqn:Hw;
    [|destruct (ci_exn w root) as [e2|] eqn:Hc];
    cbn [seq_specs]; intros H; inversion H; subst.
  - unfold workspace_exn in Hw.
    destruct (path_exists _ _); [by eapply read_exn_status|done].
  - unfold ci_exn in Hc.
    destruct (path_exists _ _); [by eapply read_exn_status|done].
Qed.

Lemma checks_spec_none w root d :
  checks_spec w root = (d, None) →
  workspace_exn w root = None ∧ ci_exn w root = None.
Proof.
  unfold checks_spec, check_specs.
  destruct (workspace_exn w root), (ci_exn w root); cbn [seq_specs];
    intros H; by inversion H.
Qed.

Lemma d_errors_dconcat_nil_inv {A} (f : A → Delta) xs :
  d_errors (dconcat (f <$> xs)) = [] → ∀ x, x ∈ xs → d_errors (f x) = [].
Proof.
  rewrite d_errors_dconcat. induction xs as [|x xs IH]; cbn.
  - by intros _ ? ?%elem_of_nil.
  - intros [H1 H2]%app_eq_nil y [->|Hy]%elem_of_cons; [done|by apply IH].
Qed.

Lemma no_errors_required_present w root :
  path_exists w root = true →
  workspace_exn w root = None → ci_exn w root = None →
  d_errors (structure_delta w root) = [] →
  d_errors (crate_files_delta w root) = [] →
  d_errors (examples_delta w root) = [] →
  d_errors (workspace_delta w root) = [] →
  d_errors (ci_delta w root) = [] →
  required_present w root.
Proof.
  intros Hroot Hwx Hcx Hs Hc He Hw Hci. split; [done|..].
  - intros d Hd. unfold structure_delta in Hs.
    cbn [d_errors dapp printed app] in Hs.
    pose proof (d_errors_dconcat_nil_inv _ _ Hs d Hd) as H.
    cbv beta in H. destruct (path_exists w (root // d)); [reflexivity|].
    by cbn in H.
  - intros c Hin. unfold crate_files_delta in Hc.
    cbn [d_errors dapp printed app] in Hc.
    pose proof (d_errors_dconcat_nil_inv _ _ Hc c Hin) as H.
    unfold crate_delta in H.
    destruct (path_exists w (root // "crates" // c // "Cargo.toml")),
      (path_exists w (root // "crates" // c // "src" // "lib.rs"));
      cbn in H; try discriminate H; by split.
  - intros e Hin. unfold examples_delta in He.
    cbn [d_errors dapp printed app] in He.
    pose proof (d_errors_dconcat_nil_inv _ _ He e Hin) as H.
    cbv beta in H.
    destruct (path_exists w (root // "examples" // e)); [done|by cbn in H].
  - unfold workspace_exn, read_exn, path_exists in Hwx.
    unfold workspace_delta in Hw.
    destruct (lookup_path _ _) as [[|content|]|]; try done.
    exists content. split; [done|]. intros m Hm.
    cbn [d_errors dapp printed app] in Hw. unfold members_delta in Hw.
    pose proof (d_errors_dconcat_nil_inv _ _ Hw m Hm) as H.
    cbv beta in H. destruct (Str.contains _ _); [done|by cbn in H].
  - unfold ci_exn, read_exn, path_exists in Hcx.
    unfold ci_delta in Hci. unfold is_text_file.
    destruct (lookup_path _ _) as [[|content|]|]; try done.
    by exists content.
Qed.

Lemma d_errors_dapp a b : d_errors (dapp a b) = d_errors a ++ d_errors b.
Proof. reflexivity. Qed.

(** X14.  [main] exits with status 0 exactly when everything required is
    present, that is when the root exists with every required directory,
    both files of every crate, every example, a readable root [Cargo.toml]
    naming every member and a readable CI workflow; in every other case
    it exits with status 1.  It constructs no validator exactly when the
    root does not exist. *)
Theorem exit_zero_iff_required_present (w : World) (out : list string) :
  (exit_status (main w out).1.1 = 0%Z ↔ required_present w (script_dir w))
  ∧ (exit_status (main w out).1.1 = 0%Z ∨ exit_status (main w out).1.1 = 1%Z)
  ∧ ((main w out).1.2 = None ↔ path_exists w (script_dir w) = false).
Proof.
  destruct (path_exists w (script_dir w)) eqn:Hroot.
  - destruct (checks_spec w (script_dir w)) as [d [e|]] eqn:Hspec.
    + destruct (main_raises w out d e Hroot Hspec) as (v & out' & ->).
      cbn [fst snd]. rewrite (checks_spec_exn _ _ _ _ Hspec).
      split; [|split; [by right|done]]. split; [done|].
      intros Hpresent.
      pose proof (checks_spec_completes w (script_dir w)
                    (present_workspace_exn _ _ Hpresent)
                    (present_ci_exn _ _ Hpresent)) as H.
      rewrite Hspec in H. by injection H.
    + destruct (main_completes w out d Hroot Hspec)
        as (v & out' & -> & _ & He & _ & _).
      cbn [fst snd exit_status].
      destruct (checks_spec_none _ _ _ Hspec) as [Hwx Hcx].
      rewrite (checks_spec_completes _ _ Hwx Hcx) in Hspec.
      injection Hspec as <-. rewrite !d_errors_dapp in He.
      split; [|split; [|done]].
      * split.
        -- intros Hexit. destruct (errors v); [|discriminate Hexit].
           symmetry in He. repeat (apply app_eq_nil in He as [? He]).
           by apply no_errors_required_present.
        -- intros Hpresent. rewrite He.
           by rewrite present_structure_errors, present_crate_files_errors,
             present_examples_errors, present_workspace_errors, docker_errors,
             present_ci_errors, documentation_errors, cargo_errors.
      * by destruct (truthy (errors v)); [right|left].
  - rewrite main_root_missing by done. cbn [fst snd exit_status].
    split; [|split; [by right|done]]. split; [done|].
    intros Hpresent. rewrite (present_root _ _ Hpresent) in Hroot. done.
Qed.

(** ** How much a run records *)

Lemma dsize_structure w root : dsize (structure_delta w root) = 8.
Proof.
  unfold structure_delta. rewrite dsize_dapp, (dsize_dconcat _ 1); [done|].
  intros d _. by destruct (path_exists _ _).
Qed.

Lemma dsize_crate_files w root : dsize (crate_files_delta w root) = 8.
Proof.
  unfold crate_files_delta. rewrite dsize_dapp, (dsize_dconcat _ 2); [done|].
  intros c _. unfold crate_delta.
  by destruct (path_exists _ _), (path_exists _ _).
Qed.

Lemma dsize_examples w root : dsize (examples_delta w root) = 3.
Proof.
  unfold examples_delta. rewrite dsize_dapp, (dsize_dconcat _ 1); [done|].
  intros e _. by destruct (path_exists _ _).
Qed.

Lemma dsize_workspace w root :
  readable_if_present w (root // "Cargo.toml") →
  dsize (workspace_delta w root)
  = if path_exists w (root // "Cargo.toml") then 5 else 1.
Proof.
  unfold readable_if_present, is_text_file, workspace_delta, path_exists.
  intros H. destruct (lookup_path _ _) as [n|]; [|done].
  destruct (H eq_refl) as [content [= ->]].
  unfold members_delta. rewrite dsize_dapp, (dsize_dconcat _ 1); [done|].
  intros m _. by destruct (Str.contains _ _).
Qed.

Lemma dsize_docker w root : dsize (docker_delta w root) = 3.
Proof. unfold docker_delta. by repeat destruct (path_exists _ _). Qed.

Lemma dsize_ci w root :
  readable_if_present w (root // ".github" // "workflows" // "ci.yml") →
  dsize (ci_delta w root)
  = if path_exists w (root // ".github" // "workflows" // "ci.yml")
    then 5 else 1.
Proof.
  unfold readable_if_present, is_text_file, ci_delta, path_exists.
  intros H. destruct (lookup_path _ _) as [n|]; [|done].
  destruct (H eq_refl) as [content [= ->]].
  unfold jobs_delta. rewrite !dsize_dapp, (dsize_dconcat _ 1); [done|].
  intros job _. by destruct (Str.contains _ _).
Qed.

Lemma dsize_documentation w root : dsize (documentation_delta w root) = 4.
Proof.
  unfold documentation_delta. rewrite dsize_dapp, (dsize_dconcat _ 1); [done|].
  intros d _. by destruct (path_exists _ _).
Qed.

Lemma dsize_cargo w : dsize (cargo_delta w) = 1.
Proof.
  unfold cargo_delta.
  destruct (cargo_check w) as [returncode ?| | |]; [|done..].
  by destruct (returncode =? 0)%Z.
Qed.

Lemma entries_of_lists v d :
  errors v = d_errors d → warnings v = d_warnings d →
  successes v = d_successes d → entries v = dsize d.
Proof. unfold entries, dsize. by intros -> -> ->. Qed.

(** X15.  In a run that is not cut short by a file that cannot be read,
    everything the validator looks for is recorded exactly once, as a
    success, a warning or an error: 27 entries for the directories, crate
    files, examples, Docker files, documentation files and the build check,
    and for each of the root [Cargo.toml] and the CI workflow file either
    five entries when it exists or the single error when it does not. *)
Theorem completed_run_entries (w : World) (out : list string) :
  path_exists w (script_dir w) = true →
  readable_if_present w (script_dir w // "Cargo.toml") →
  readable_if_present w (script_dir w // ".github" // "workflows" // "ci.yml") →
  ∃ code v out',
    main w out = (Raise (SystemExit code), Some v, out')
    ∧ entries v
      = (27
         + (if path_exists w (script_dir w // "Cargo.toml") then 5 else 1)
         + (if path_exists w (script_dir w // ".github" // "workflows"
                              // "ci.yml")
            then 5 else 1))%nat.
Proof.
  intros Hroot Hcargo Hci.
  destruct (main_completes w out _ Hroot
              (checks_spec_completes w (script_dir w)
                 (readable_no_exn _ _ Hcargo) (readable_no_exn _ _ Hci)))
    as (v & out' & Hmain & _ & He & Hw & Hs).
  eexists _, v, out'. split; [exact Hmain|].
  rewrite (entries_of_lists _ _ He Hw Hs), !dsize_dapp.
  rewrite dsize_structure, dsize_crate_files, dsize_examples,
    dsize_workspace, dsize_docker, dsize_ci, dsize_documentation, dsize_cargo
    by done.
  change (dsize dnil) with 0. lia.
Qed.

Lemma completed_run_entries_witness :
  ∃ code v out',
    main (ci_only_world "jobs: test:") [] = (Raise (SystemExit code), Some v, out')
    ∧ entries v = (27 + 1 + 5)%nat.
Proof.
  apply (completed_run_entries (ci_only_world "jobs: test:") []).
  - reflexivity.
  - intros H. discriminate H.
  - intros _. eexists. reflexivity.
Defined.

Lemma sample_all_present stderr :
  all_present (sample_world true true (Completed 0 stderr)) ["egg"].
Proof.
  split.
  - apply sample_required_present.
  - intros f Hf. unfold optional_files in Hf. each_member Hf; reflexivity.
  - intros d Hd. unfold docs in Hd. each_member Hd; reflexivity.
  - eexists. split; [reflexivity|].
    intros job Hjob. unfold required_jobs in Hjob.
    each_member Hjob; reflexivity.
  - by eexists.
Defined.

Section AllPresent.

Variables (w : World) (root : Path).
Hypothesis Hall : all_present w root.

Lemma all_docker_warnings : d_warnings (docker_delta w root) = [].
Proof.
  unfold docker_delta.
  rewrite (all_optional _ _ Hall "Dockerfile"),
    (all_optional _ _ Hall "docker-compose.yml"),
    (all_optional _ _ Hall ".dockerignore");
    [done|unfold optional_files; rewrite !elem_of_cons; auto..].
Qed.

Lemma all_ci_warnings : d_warnings (ci_delta w root) = [].
Proof.
  destruct (all_jobs _ _ Hall) as (content & Hlookup & Hjobs).
  unfold ci_delta. rewrite Hlookup.
  cbn [d_warnings dapp printed success app]. unfold jobs_delta.
  apply d_warnings_dconcat_nil. intros job Hjob. by rewrite (Hjobs job Hjob).
Qed.

Lemma all_documentation_warnings :
  d_warnings (documentation_delta w root) = [].
Proof.
  unfold documentation_delta. cbn [d_warnings dapp printed app].
  apply d_warnings_dconcat_nil. intros d Hd.
  by rewrite (all_docs _ _ Hall d Hd).
Qed.

Lemma all_cargo_warnings : d_warnings (cargo_delta w) = [].
Proof.
  destruct (all_cargo _ _ Hall) as [stderr Hcargo].
  unfold cargo_delta. by rewrite Hcargo.
Qed.

End AllPresent.

Lemma d_warnings_dapp a b :
  d_warnings (dapp a b) = d_warnings a ++ d_warnings b.
Proof. reflexivity. Qed.

(** X16.  When nothing the validator looks for is missing, every CI job is
    defined and the build check succeeds, the run records no error and no
    warning but 37 successes, the verdict is PASSED and [main] exits with
    status 0. *)
Theorem all_present_passes (w : World) (out : list string) :
  all_present w (script_dir w) →
  ∃ v out',
    main w out = (Raise (SystemExit 0), Some v, out')
    ∧ errors v = []
    ∧ warnings v = []
    ∧ length (successes v) = 37
    ∧ last out' = Some "✅ VALIDATION PASSED".
Proof.
  intros Hall. pose proof (all_required _ _ Hall) as Hpresent.
  destruct (main_completes w out _ (present_root _ _ Hpresent)
              (checks_spec_completes w (script_dir w)
                 (present_workspace_exn _ _ Hpresent)
                 (present_ci_exn _ _ Hpresent)))
    as (v & out' & Hmain & Hlast & He & Hw & Hs).
  assert (Herrors : errors v = []).
  { rewrite He, !d_errors_dapp.
    by rewrite present_structure_errors, present_crate_files_errors,
      present_examples_errors, present_workspace_errors, docker_errors,
      present_ci_errors, documentation_errors, cargo_errors. }
  assert (Hwarnings : warnings v = []).
  { rewrite Hw, !d_warnings_dapp.
    by rewrite structure_warnings, crate_files_warnings, examples_warnings,
      workspace_warnings, (all_docker_warnings _ _ Hall),
      (all_ci_warnings _ _ Hall), (all_documentation_warnings _ _ Hall),
      (all_cargo_warnings _ _ Hall). }
  assert (Hentries : entries v = 37).
  { rewrite (entries_of_lists _ _ He Hw Hs), !dsize_dapp.
    destruct (present_members _ _ Hpresent) as (content & Hcargo & _).
    destruct (present_ci_workflow _ _ Hpresent) as (content' & Hci).
    rewrite dsize_structure, dsize_crate_files, dsize_examples,
      dsize_workspace, dsize_docker, dsize_ci, dsize_documentation,
      dsize_cargo;
      [|intros _; by eexists..].
    unfold path_exists. by rewrite Hcargo, Hci. }
  exists v, out'. rewrite Hmain, Hlast, Herrors. cbn [truthy].
  split; [done|]. split; [done|]. split; [done|]. split.
  - unfold entries in Hentries. rewrite Herrors, Hwarnings in Hentries.
    cbn [length] in Hentries. lia.
  - unfold verdict_of. by rewrite Herrors, Hwarnings.
Qed.

Lemma all_present_passes_witness :
  ∃ v out',
    main (sample_world true true (Completed 0 "")) []
    = (Raise (SystemExit 0), Some v, out')
    ∧ errors v = []
    ∧ warnings v = []
    ∧ length (successes v) = 37
    ∧ last out' = Some "✅ VALIDATION PASSED".
Proof.
  apply (all_present_passes (sample_world true true (Completed 0 "")) []).
  apply sample_all_present.
Defined.
